(** * A model of the crawl coordinator in scraper.py

    The Python class [Scraper] talks to five collaborators: the web
    (requests), the HTML parser (BeautifulSoup), the local file system and
    S3, Redis, and Kafka.  The model threads an explicit [World] through
    every call, records each interaction in an output trace, and lets an
    [Env] answer the questions whose answer the program cannot know
    (what the network returns, whether an upload fails, what the clock
    shows, how urllib splits a string). *)

From Stdlib Require Import QArith Ascii String.
From stdpp Require Import gmap strings list fin_maps sorting.
Close Scope Q_scope.
Open Scope Z_scope.

(** ** Data *)

(** A Redis value: the program only creates integer strings (INCR) and
    sets (SADD); [ROther] stands for any other value a key may hold. *)
Inductive rvalue : Type :=
  | RInt (n : Z)
  | RSet (s : gset string)
  | ROther.

(** The JSON object [{"url": ..., "depth": ...}] carried by a Kafka record. *)
Record message : Type := Message { msg_url : string; msg_depth : Z }.

#[global] Instance message_eq_dec : EqDecision message.
Proof. solve_decision. Defined.

(** The part of [requests.Response] that [scrape] reads. *)
Record response : Type := Response {
  status_code : Z;
  content : string;
  text : string
}.

(** The part of [urllib.parse.ParseResult] that [process_link] reads. *)
Record url_parts : Type := UrlParts { scheme : string; netloc : string }.

(** Python exceptions that can travel through the modelled code. *)
Inductive exn : Type :=
  | RequestException      (* requests.get: transport failure *)
  | HTTPError             (* Response.raise_for_status *)
  | S3UploadFailed        (* boto3 client creation or upload_file *)
  | FileNotFoundError     (* os.remove, upload of a missing file *)
  | RedisResponseError    (* WRONGTYPE, not an integer, overflow *)
  | ValueError            (* urllib.parse on a malformed URL, int() of a non-number *)
  | TypeError             (* int(None) *)
  | ProducerClosedError   (* KafkaProducer.send after close *)
  | OSError.              (* open: the file name is too long *)

(** Lines written through [logging] and [print]. *)
Inductive log_line : Type :=
  | InfoStart (url : string) (max_depth : Z)
  | InfoDepthExceeded (depth max_depth : Z)
  | ErrorScraping (url : string) (e : exn)
  | PrintSaveToS3 (url : string)
  | InfoUploaded (file_url : string)
  | ErrorUploading (e : exn)
  | PrintFileDeleted (path : string)
  | PrintFileNotFound (path : string)
  | PrintDeleteError (e : exn)
  | InfoMaxUrls (max_urls : Z) (url : string)
  | InfoMaxTime (max_time : Z)
  | InfoScraped (url : string) (depth : Z)
  | PrintData (m : message)
  | ErrorCleanup (e : exn).

(** One interaction with a collaborator, in the order the code performs it. *)
Inductive event : Type :=
  | EvLog (l : log_line)
  | EvHttpGet (url : string)
  | EvFileWrite (path : string)
  | EvUpload (path bucket key : string)
  | EvFileRemove (path : string)
  | EvIncr (key : string)
  | EvGet (key : string)
  | EvTime
  | EvSismember (key member : string)
  | EvSadd (key member : string)
  | EvSend (m : message)
  | EvProducerClose
  | EvCommit (offset : nat)
  | EvConsumerClose.

(** The state shared with the collaborators. *)
Record World : Type := mkWorld {
  redis : gmap string rvalue;            (* Redis db 0 *)
  files : gmap string string;            (* local files: path to content *)
  bucket : gmap (string * string) string;(* S3: (bucket, key) to content *)
  topic : list message;                  (* log of topic self.kafka_topic *)
  committed : option nat;                (* offset of 'web_scraping_group' *)
  producer_closed : bool;                (* self.producer.close() was called *)
  asked : nat                            (* oracle answers consumed so far *)
}.

(** What the program cannot decide by itself.  The oracles are indexed by
    [asked], so the same URL may answer differently on a later request and
    the clock may advance between two readings. *)
Record Env : Type := mkEnv {
  requests_get : nat -> string -> option response; (* None: the call raises *)
  find_all_a : string -> list (option string);     (* href of each <a>, None if absent *)
  upload_raises : nat -> bool;
  time_time : nat -> Q;      (* seconds, as exact rationals: no rounding *)
  urlparse : string -> option url_parts;           (* None: ValueError *)
  urljoin : string -> string -> option string;     (* None: ValueError *)
  iteration_ends : bool   (* the KafkaConsumer iterator stops when no record is left *)
}.

(** The object built by [Scraper.__init__]. *)
Record Scraper : Type := mkScraper {
  max_depth : Z;
  max_urls : Z;
  max_time_in_sec : Z;
  kafka_topic : string;
  start_time : Q;
  bucket_name : string
}.

(** ** The monad: state, output trace, exceptions, blocking *)

Inductive result (A : Type) : Type :=
  | Ret (a : A)
  | Raise (e : exn)
  | Block.            (* waits for ever on a collaborator *)
Arguments Ret {A} a.
Arguments Raise {A} e.
Arguments Block {A}.

Record Run (A : Type) : Type := mkRun {
  out : list event;
  world : World;
  res : result A
}.
Arguments mkRun {A} out world res.
Arguments out {A} r.
Arguments world {A} r.
Arguments res {A} r.

Definition M (A : Type) : Type := World -> Run A.

Definition ret {A} (a : A) : M A := fun w => mkRun [] w (Ret a).

Definition bind {A B} (m : M A) (k : A -> M B) : M B := fun w =>
  let r := m w in
  match res r with
  | Ret a => let r' := k a (world r) in mkRun (out r ++ out r') (world r') (res r')
  | Raise e => mkRun (out r) (world r) (Raise e)
  | Block => mkRun (out r) (world r) Block
  end.

#[global] Instance M_ret : MRet M := @ret.
#[global] Instance M_bind : MBind M := fun A B k m => bind m k.

Definition raise {A} (e : exn) : M A := fun w => mkRun [] w (Raise e).
Definition block {A} : M A := fun w => mkRun [] w Block.
Definition emit (e : event) : M unit := fun w => mkRun [e] w (Ret tt).
Definition get_world : M World := fun w => mkRun [] w (Ret w).
Definition put_world (w' : World) : M unit := fun _ => mkRun [] w' (Ret tt).

(** [try: body except Exception as e: handler e]. *)
Definition try_except {A} (body : M A) (handler : exn -> M A) : M A := fun w =>
  let r := body w in
  match res r with
  | Raise e => let r' := handler e (world r) in mkRun (out r ++ out r') (world r') (res r')
  | _ => r
  end.

(** [for x in xs: body x]. *)
Fixpoint for_each {A} (xs : list A) (body : A -> M unit) : M unit :=
  match xs with
  | [] => mret tt
  | x :: xs' => body x ;; for_each xs' body
  end.

(** Consuming one oracle answer. *)
Definition ask : M nat := fun w =>
  mkRun [] (mkWorld (redis w) (files w) (bucket w) (topic w) (committed w)
                    (producer_closed w) (S (asked w))) (Ret (asked w)).

Definition set_redis (f : gmap string rvalue -> gmap string rvalue) (w : World) : World :=
  mkWorld (f (redis w)) (files w) (bucket w) (topic w) (committed w) (producer_closed w) (asked w).
Definition set_files (f : gmap string string -> gmap string string) (w : World) : World :=
  mkWorld (redis w) (f (files w)) (bucket w) (topic w) (committed w) (producer_closed w) (asked w).
Definition set_bucket (f : gmap (string * string) string -> gmap (string * string) string)
    (w : World) : World :=
  mkWorld (redis w) (files w) (f (bucket w)) (topic w) (committed w) (producer_closed w) (asked w).
Definition set_topic (f : list message -> list message) (w : World) : World :=
  mkWorld (redis w) (files w) (bucket w) (f (topic w)) (committed w) (producer_closed w) (asked w).
Definition set_committed (c : option nat) (w : World) : World :=
  mkWorld (redis w) (files w) (bucket w) (topic w) c (producer_closed w) (asked w).
Definition set_producer_closed (b : bool) (w : World) : World :=
  mkWorld (redis w) (files w) (bucket w) (topic w) (committed w) b (asked w).

Definition logging (l : log_line) : M unit := emit (EvLog l).

(** ** The collaborators' operations *)

Section Collaborators.
Context (env : Env).

(** [requests.get(url)] *)
Definition http_get (url : string) : M response :=
  n ← ask;
  emit (EvHttpGet url) ;;
  match requests_get env n url with
  | Some r => mret r
  | None => raise RequestException
  end.

(** [Response.raise_for_status()]: requests raises HTTPError exactly for
    the client-error and server-error classes, 400 to 599. *)
Definition raise_for_status (r : response) : M unit :=
  if (400 <=? status_code r) && (status_code r <? 600)
  then raise HTTPError else mret tt.

(** [s3_client.upload_file(file_path, bucket, key)], together with the
    client creation that precedes it inside the same [try]. *)
Definition s3_upload_file (path bkt key : string) : M unit :=
  n ← ask;
  emit (EvUpload path bkt key) ;;
  if upload_raises env n then raise S3UploadFailed
  else
    w ← get_world;
    match files w !! path with
    | Some c => put_world (set_bucket (insert (bkt, key) c) w)
    | None => raise FileNotFoundError
    end.

(** [time.time()] *)
Definition clock : M Q :=
  n ← ask;
  emit EvTime ;;
  mret (time_time env n).
End Collaborators.

(** [os.remove(path)] *)
Definition os_remove (path : string) : M unit :=
  w ← get_world;
  match files w !! path with
  | Some _ => emit (EvFileRemove path) ;; put_world (set_files (delete path) w)
  | None => raise FileNotFoundError
  end.

(** Redis integers are signed 64-bit. *)
Definition int64_min : Z := - 2 ^ 63.
Definition int64_max : Z := 2 ^ 63 - 1.

(** [redis_client.incr(key)] *)
Definition redis_incr (key : string) : M Z :=
  emit (EvIncr key) ;;
  w ← get_world;
  match redis w !! key with
  | None => put_world (set_redis (insert key (RInt 1)) w) ;; mret 1
  | Some (RInt n) =>
      if (int64_min <=? n) && (n <? int64_max)
      then put_world (set_redis (insert key (RInt (n + 1))) w) ;; mret (n + 1)
      else raise RedisResponseError
  | Some _ => raise RedisResponseError
  end.

(** [int(redis_client.get(key))] *)
Definition redis_get_int (key : string) : M Z :=
  emit (EvGet key) ;;
  w ← get_world;
  match redis w !! key with
  | Some (RInt n) => mret n
  | Some (RSet _) => raise RedisResponseError
  | Some ROther => raise ValueError
  | None => raise TypeError
  end.

(** [redis_client.sismember(key, member)] *)
Definition redis_sismember (key member : string) : M bool :=
  emit (EvSismember key member) ;;
  w ← get_world;
  match redis w !! key with
  | None => mret false
  | Some (RSet s) => mret (bool_decide (member ∈ s))
  | Some _ => raise RedisResponseError
  end.

(** [redis_client.sadd(key, member)] *)
Definition redis_sadd (key member : string) : M unit :=
  emit (EvSadd key member) ;;
  w ← get_world;
  match redis w !! key with
  | None => put_world (set_redis (insert key (RSet {[member]})) w)
  | Some (RSet s) => put_world (set_redis (insert key (RSet ({[member]} ∪ s))) w)
  | Some _ => raise RedisResponseError
  end.

(** [producer.send(topic, value=message)]; the record is taken to reach the
    topic at once. *)
Definition producer_send (m : message) : M unit :=
  w ← get_world;
  if producer_closed w then raise ProducerClosedError
  else emit (EvSend m) ;; put_world (set_topic (λ t, t ++ [m]) w).

(** [producer.close()] *)
Definition producer_close : M unit :=
  emit EvProducerClose ;;
  w ← get_world;
  put_world (set_producer_closed true w).

(** [consumer.commit()] once the consumer's position is [offset]. *)
Definition consumer_commit (offset : nat) : M unit :=
  emit (EvCommit offset) ;;
  w ← get_world;
  put_world (set_committed (Some offset) w).

(** ** Module-level functions of scraper.py *)

(** [s.replace(a, b)] for one-character [a] and [b]. *)
Fixpoint replace_char (a b : Ascii.ascii) (s : string) : string :=
  match s with
  | EmptyString => EmptyString
  | String c s' => String (if Ascii.eqb c a then b else c) (replace_char a b s')
  end.

Definition newline : string := String (Ascii.ascii_of_nat 10) EmptyString.

Definition file_name_of (url : string) : string :=
  replace_char "."%char "_"%char
    (replace_char ":"%char "_"%char (replace_char "/"%char "_"%char url)) +:+ ".txt".

(** The longest file name, in bytes, that the file system accepts
    (NAME_MAX of the Linux file systems). *)
Definition name_max : nat := 255.

(** [open(file_path, "w")] accepts the file of [url]. *)
Definition file_name_fits (url : string) : bool :=
  (String.length (file_name_of url) <=? name_max)%nat.

(** [create_file(url, raw_html)] with the default [output_dir="."].
    [open] raises OSError for a file name of more than [name_max] bytes,
    before anything is written. *)
Definition create_file (url raw_html : string) : M (string * string) :=
  let filename := file_name_of url in
  let file_path := "./" +:+ filename in
  if file_name_fits url then
    emit (EvFileWrite file_path) ;;
    w ← get_world;
    put_world (set_files (insert file_path (url +:+ newline +:+ raw_html)) w) ;;
    mret (file_path, filename)
  else raise OSError.

(** [delete_file(file_path)] *)
Definition delete_file (file_path : string) : M unit :=
  try_except
    (os_remove file_path ;; logging (PrintFileDeleted file_path))
    (λ e, match e with
          | FileNotFoundError => logging (PrintFileNotFound file_path)
          | _ => logging (PrintDeleteError e)
          end).

(** ** class Scraper *)

Definition urls_visited_key (url : string) : string := "urls_visited_count:" +:+ url.
Definition visited_key (href : string) : string := "visited_urls:" +:+ href.

Definition or_value_error {A} (o : option A) : M A :=
  match o with
  | Some a => mret a
  | None => raise ValueError
  end.

Section Scraper.
Context (env : Env).

(** [Scraper.__init__] *)
Definition Scraper_init : M Scraper :=
  now ← clock env;
  w ← get_world;
  put_world (set_producer_closed false w) ;;   (* self.producer = KafkaProducer(...) *)
  mret {| max_depth := 2; max_urls := 5; max_time_in_sec := 30;
          kafka_topic := "new_urls"; start_time := now;
          bucket_name := "yonatangazitwebscraper" |}.

Context (self : Scraper).

(** [Scraper.process_link(href, depth)] *)
Definition process_link (href : option string) (depth : Z) : M unit :=
  match href with
  | None => mret tt
  | Some EmptyString => mret tt
  | Some href =>
      seen ← redis_sismember (visited_key href) href;
      if (seen : bool) then mret tt
      else
        redis_sadd (visited_key href) href ;;
        parsed_url ← or_value_error (urlparse env href);
        href' ← (if decide (scheme parsed_url = "")
                 then
                   base_url ← or_value_error (urlparse env (kafka_topic self));
                   or_value_error
                     (urljoin env (scheme base_url +:+ "://" +:+ netloc base_url) href)
                 else mret href);
        producer_send (Message href' depth)
  end.

(** The two statements under [try] at the top of [scrape]. *)
Definition fetch (url : string) : M response :=
  response ← http_get env url;
  raise_for_status response ;;
  mret response.

(** The [try]/[except] around the S3 upload. *)
Definition save_to_s3 (file_path file_name : string) : M unit :=
  try_except
    (s3_upload_file env file_path (bucket_name self) file_name ;;
     logging (InfoUploaded
       ("https://" +:+ bucket_name self +:+ ".s3.amazonaws.com/" +:+ file_name)))
    (λ e, logging (ErrorUploading e)).

(** [time.time() - self.start_time >= self.max_time_in_sec], guarded by
    the truth value of [self.max_time_in_sec]. *)
Definition time_limit_reached : M bool :=
  if decide (max_time_in_sec self = 0) then mret false
  else
    now ← clock env;
    mret (Qle_bool (inject_Z (max_time_in_sec self)) (Qminus now (start_time self))).

(** [Scraper.scrape(url, depth)] *)
Definition scrape (url : string) (depth : Z) : M unit :=
  if depth >? max_depth self
  then logging (InfoDepthExceeded depth (max_depth self))
  else
    fetched ← try_except (response ← fetch url; mret (Some response))
                         (λ e, logging (ErrorScraping url e) ;; mret None);
    match fetched with
    | None => mret tt
    | Some response =>
        let soup := find_all_a env (content response) in
        let raw_html := text response in
        '(file_path, file_name) ← create_file url raw_html;
        logging (PrintSaveToS3 url) ;;
        save_to_s3 file_path file_name ;;
        delete_file file_path ;;
        let urls_visited_key := urls_visited_key url in
        redis_incr urls_visited_key ;;
        urls_visited_count ← redis_get_int urls_visited_key;
        if urls_visited_count >=? max_urls self
        then logging (InfoMaxUrls (max_urls self) url)
        else
          late ← time_limit_reached;
          if (late : bool) then logging (InfoMaxTime (max_time_in_sec self))
          else
            logging (InfoScraped url depth) ;;
            for_each soup (λ href, process_link href (depth + 1))
    end.

(** [Scraper.start_scraping(initial_urls)] *)
Definition start_scraping (initial_urls : list string) : M unit :=
  for_each initial_urls (λ url,
    logging (InfoStart url (max_depth self)) ;;
    scrape url 0).

(** The body of [for message in consumer: consumer.commit()], over the
    records from [position] on. *)
Fixpoint drain (records : list message) (position : nat) : M unit :=
  match records with
  | [] => mret tt
  | _ :: records' => consumer_commit (S position) ;; drain records' (S position)
  end.

(** [Scraper.empty_kafka_queue()]: a consumer of group
    'web_scraping_group' starts at the committed offset, or at the
    earliest record when the group has none. *)
Definition empty_kafka_queue : M unit :=
  w ← get_world;
  let position := default 0%nat (committed w) in
  drain (drop position (topic w)) position ;;
  if iteration_ends env then emit EvConsumerClose else block.

(** [Scraper.cleanup()] *)
Definition cleanup : M unit :=
  try_except (producer_close ;; empty_kafka_queue)
             (λ e, logging (ErrorCleanup e)).

(** The loop of [Scraper.run_kafka_consumer()], cut after [n] records.
    When no record is left at the consumer's position it waits. *)
Fixpoint consume (n : nat) (position : nat) : M unit :=
  match n with
  | O => mret tt
  | S n' =>
      w ← get_world;
      match topic w !! position with
      | None => block
      | Some m =>
          logging (PrintData m) ;;
          scrape (msg_url m) (msg_depth m) ;;
          consume n' (S position)
      end
  end.

(** [Scraper.run_kafka_consumer()]: the consumer joins group
    'web_scraping_group' with the default [auto_offset_reset='latest']. *)
Definition run_kafka_consumer (n : nat) : M unit :=
  w ← get_world;
  consume n (default (length (topic w)) (committed w)).
End Scraper.

(** The handler of [POST /scrape/]. *)
Definition api_start_scraping (env : Env) (initial_urls : list string) : M unit :=
  scraper ← Scraper_init env;
  start_scraping env scraper initial_urls ;;
  cleanup env.

(** ** An executable environment

    The theorems below hold for every [Env].  To run the model on concrete
    inputs, this section gives one: urllib's splitting and joining for
    URLs made of a scheme, a network location and a path (no parameters,
    query or fragment, no surrounding white space), a network that serves
    a fixed table of pages, and a clock given as a function. *)
Module Urllib.
Definition is_alpha (c : Ascii.ascii) : bool :=
  let n := nat_of_ascii c in
  ((65 <=? n) && (n <=? 90) || (97 <=? n) && (n <=? 122))%nat.
Definition is_scheme_char (c : Ascii.ascii) : bool :=
  let n := nat_of_ascii c in
  (is_alpha c || (48 <=? n) && (n <=? 57) || (n =? 43) || (n =? 45) || (n =? 46))%nat.
Definition lower (c : Ascii.ascii) : Ascii.ascii :=
  let n := nat_of_ascii c in
  if ((65 <=? n) && (n <=? 90))%nat then ascii_of_nat (n + 32) else c.

Fixpoint string_forall (p : Ascii.ascii -> bool) (s : string) : bool :=
  match s with
  | EmptyString => true
  | String c s' => p c && string_forall p s'
  end.
Fixpoint string_map (f : Ascii.ascii -> Ascii.ascii) (s : string) : string :=
  match s with
  | EmptyString => EmptyString
  | String c s' => String (f c) (string_map f s')
  end.
Fixpoint contains (a : Ascii.ascii) (s : string) : bool :=
  match s with
  | EmptyString => false
  | String c s' => Ascii.eqb c a || contains a s'
  end.
(** [s.split(sep)]: the pieces between the separators. *)
Fixpoint split_on (sep : Ascii.ascii) (s : string) : list string :=
  match s with
  | EmptyString => [EmptyString]
  | String c s' =>
      if Ascii.eqb c sep then EmptyString :: split_on sep s'
      else match split_on sep s' with
           | h :: t => String c h :: t
           | [] => [String c EmptyString]
           end
  end.
(** The text before the first [sep] and, when there is one, the text after it. *)
Fixpoint cut (sep : Ascii.ascii) (s : string) : string * option string :=
  match s with
  | EmptyString => (EmptyString, None)
  | String c s' =>
      if Ascii.eqb c sep then (EmptyString, Some s')
      else let '(a, b) := cut sep s' in (String c a, b)
  end.
Fixpoint join (sep : string) (l : list string) : string :=
  match l with
  | [] => EmptyString
  | [x] => x
  | x :: l' => x +:+ sep +:+ join sep l'
  end.

(** [urlsplit]: scheme, netloc and path; [None] for the ValueError on an
    unbalanced bracket in the netloc. *)
Definition urlsplit (default_scheme url : string) : option (string * string * string) :=
  let '(sch, rest) :=
    match cut ":" url with
    | (String c pre, Some post) =>
        if is_alpha c && string_forall is_scheme_char (String c pre)
        then (string_map lower (String c pre), post)
        else (default_scheme, url)
    | _ => (default_scheme, url)
    end in
  match rest with
  | String "/" (String "/" after) =>
      let '(loc, path) := cut "/" after in
      let path := match path with Some p => String "/" p | None => EmptyString end in
      if xorb (contains "[" loc) (contains "]" loc) then None
      else Some (sch, loc, path)
  | _ => Some (sch, EmptyString, rest)
  end.

Definition urlparse (url : string) : option url_parts :=
  '(sch, loc, _) ← urlsplit "" url;
  Some (UrlParts sch loc).

Definition uses_relative : list string :=
  [""; "ftp"; "http"; "gopher"; "nntp"; "imap"; "wais"; "file"; "https"; "shttp";
   "mms"; "prospero"; "rtsp"; "rtspu"; "sftp"; "svn"; "svn+ssh"; "ws"; "wss"].

Definition urlunsplit (sch loc path : string) : string :=
  let url :=
    if negb (String.eqb loc "")
       || negb (String.eqb sch "") && negb (String.prefix "//" path)
    then "//" +:+ loc +:+
         (if negb (String.eqb path "") && negb (String.prefix "/" path)
          then "/" +:+ path else path)
    else path in
  if String.eqb sch "" then url else sch +:+ ":" +:+ url.

(** Removal of [.] and [..] segments, the loop at the end of [urljoin]. *)
Fixpoint resolve (segments resolved : list string) : list string :=
  match segments with
  | [] => resolved
  | seg :: rest =>
      if String.eqb seg ".." then resolve rest (removelast resolved)
      else if String.eqb seg "." then resolve rest resolved
      else resolve rest (resolved ++ [seg])
  end.

(** [segments[1:-1] = filter(None, segments[1:-1])] *)
Definition drop_empty_inner (segments : list string) : list string :=
  match segments with
  | [] => []
  | first :: rest =>
      first :: filter (λ s, s ≠ EmptyString) (removelast rest) ++
        match last rest with Some l => [l] | None => [] end
  end.

Definition urljoin (base url : string) : option string :=
  if String.eqb base "" then Some url
  else if String.eqb url "" then Some base
  else
    '(bscheme, bnetloc, bpath) ← urlsplit "" base;
    '(sch, loc, path) ← urlsplit bscheme url;
    if negb (String.eqb sch bscheme) || negb (bool_decide (sch ∈ uses_relative))
    then Some url
    else if negb (String.eqb loc "") then Some (urlunsplit sch loc path)
    else if String.eqb path "" then Some (urlunsplit sch bnetloc bpath)
    else
      let base_parts := split_on "/" bpath in
      let base_parts :=
        match last base_parts with
        | Some EmptyString => base_parts
        | _ => removelast base_parts
        end in
      let segments :=
        if String.prefix "/" path then split_on "/" path
        else drop_empty_inner (base_parts ++ split_on "/" path) in
      let resolved := resolve segments [] in
      let resolved :=
        match last segments with
        | Some seg =>
            if String.eqb seg "." || String.eqb seg ".." then resolved ++ [EmptyString]
            else resolved
        | None => resolved
        end in
      let joined := join "/" resolved in
      Some (urlunsplit sch bnetloc (if String.eqb joined "" then "/" else joined)).
End Urllib.

Module Example.
Definition empty_world : World :=
  {| redis := ∅; files := ∅; bucket := ∅; topic := []; committed := None;
     producer_closed := false; asked := 0 |}.

(** The object [Scraper()] builds when the clock shows [now]. *)
Definition scraper_at (now : Q) : Scraper :=
  {| max_depth := 2; max_urls := 5; max_time_in_sec := 30;
     kafka_topic := "new_urls"; start_time := now;
     bucket_name := "yonatangazitwebscraper" |}.

(** An environment that serves the pages of [site] (URL, status, hrefs
    of the anchors), fails every upload when [s3_down], and shows
    [now n] at the clock reading that consumes answer [n].  The body of
    a page is represented by its URL. *)
Definition hrefs_of (site : list (string * (Z * list (option string)))) (body : string)
    : list (option string) :=
  match list_find (λ p, p.1 = body) site with
  | Some (_, (_, (_, hrefs))) => hrefs
  | None => []
  end.

Definition serve (site : list (string * (Z * list (option string)))) (url : string)
    : option response :=
  match list_find (λ p, p.1 = url) site with
  | Some (_, (_, (status, _))) => Some (Response status url url)
  | None => None
  end.

Definition env_of (site : list (string * (Z * list (option string))))
    (s3_down : bool) (now : nat -> Q) : Env :=
  {| requests_get := λ _ url, serve site url;
     find_all_a := hrefs_of site;
     upload_raises := λ _, s3_down;
     time_time := now;
     urlparse := Urllib.urlparse;
     urljoin := Urllib.urljoin;
     iteration_ends := false |}.
(** A page without links, a page with two links, and the same page
    served with status 300 or 404. *)
Definition page_url : string := "http://a.test/".
Definition plain_site : list (string * (Z * list (option string))) :=
  [(page_url, (200, []))].
Definition linked_site : list (string * (Z * list (option string))) :=
  [(page_url, (200, [Some "http://b.test/x"; Some "/about"]))].
Definition multiple_choices_site : list (string * (Z * list (option string))) :=
  [(page_url, (300, [Some "http://b.test/x"]))].
Definition missing_site : list (string * (Z * list (option string))) :=
  [(page_url, (404, [Some "http://b.test/x"]))].

(** The clock stands at the start time, or a thousand seconds after it. *)
Definition on_time : nat -> Q := λ _, 0%Q.
Definition late : nat -> Q := λ _, 1000%Q.

(** A world where the visited counter of [page_url] is [n]. *)
Definition world_with_count (n : Z) : World :=
  set_redis (insert (urls_visited_key page_url) (RInt n)) empty_world.
End Example.

(** ** Reading a trace *)

(** The URLs requested over HTTP, in order. *)
Definition fetched (tr : list event) : list string :=
  omap (λ e, match e with EvHttpGet u => Some u | _ => None end) tr.

(** The records published to the topic, in order. *)
Definition sent (tr : list event) : list message :=
  omap (λ e, match e with EvSend m => Some m | _ => None end) tr.

(** The offsets committed, in order. *)
Definition commits (tr : list event) : list nat :=
  omap (λ e, match e with EvCommit n => Some n | _ => None end) tr.

(** The interactions the budget is about: the fetch, the counter increment,
    the counter read that feeds the limit comparison, the clock read that
    feeds the deadline comparison. *)
Definition is_budget_event (e : event) : bool :=
  match e with
  | EvHttpGet _ | EvIncr _ | EvGet _ | EvTime => true
  | _ => false
  end.
Definition budget_events (tr : list event) : list event := List.filter is_budget_event tr.

(** The interactions that change or publish something outside the
    consumer group's offset: everything but commits and the consumer close. *)
Definition is_drain_event (e : event) : bool :=
  match e with
  | EvCommit _ | EvConsumerClose => true
  | _ => false
  end.

(** [elapsed >= max_time_in_sec] at the clock reading that consumes answer [n]. *)
Definition deadline_passed (env : Env) (self : Scraper) (n : nat) : bool :=
  Qle_bool (inject_Z (max_time_in_sec self)) (Qminus (time_time env n) (start_time self)).

(** The membership test of [process_link] would answer "absent". *)
Definition absent (href : string) (w : World) : bool :=
  match redis w !! visited_key href with
  | None => true
  | Some (RSet s) => negb (bool_decide (href ∈ s))
  | Some _ => false
  end.

(** The link is recorded in its visited set. *)
Definition visited (href : string) (w : World) : bool :=
  match redis w !! visited_key href with
  | Some (RSet s) => bool_decide (href ∈ s)
  | _ => false
  end.

(** The statements of [process_link] after [sadd]: resolve the link and
    publish it. *)
Definition publish (env : Env) (self : Scraper) (href : string) (depth : Z) : M unit :=
  parsed_url ← or_value_error (urlparse env href);
  href' ← (if decide (scheme parsed_url = "")
           then
             base_url ← or_value_error (urlparse env (kafka_topic self));
             or_value_error
               (urljoin env (scheme base_url +:+ "://" +:+ netloc base_url) href)
           else mret href);
  producer_send (Message href' depth).

(** ** Repeated and interleaved discoveries *)

(** Running a call and keeping its exception as a value, the way a caller
    that goes on after a failed call sees it. *)
Definition attempt {A} (m : M A) : M (result A) := fun w =>
  let r := m w in mkRun (out r) (world r) (Ret (res r)).

Section Discoveries.
Context (env : Env) (self : Scraper).

(** The number of records published by the calls of [process_link] for
    the link [href] within a sequence of calls for arbitrary links. *)
Fixpoint sends_for (href : string) (calls : list (option string * Z)) (w : World) : nat :=
  match calls with
  | [] => 0%nat
  | (h, d) :: calls' =>
      let r := process_link env self h d w in
      ((if decide (h = Some href) then length (sent (out r)) else 0) +
       sends_for href calls' (world r))%nat
  end.

(** The world after a sequence of calls of [process_link]. *)
Fixpoint after_calls (calls : list (option string * Z)) (w : World) : World :=
  match calls with
  | [] => w
  | (h, d) :: calls' => after_calls calls' (world (process_link env self h d w))
  end.



End Discoveries.

(** ** Vocabulary for the proofs *)

(** A run preceded by the events [o]. *)
Definition prepend {A} (o : list event) (r : Run A) : Run A :=
  mkRun (o ++ out r) (world r) (res r).

(** The world after one more oracle answer was consumed. *)
Definition tick (w : World) : World :=
  mkWorld (redis w) (files w) (bucket w) (topic w) (committed w)
          (producer_closed w) (S (asked w)).

(** The world with the S3 bucket replaced by [b]. *)
Definition with_bucket (b : gmap (string * string) string) (w : World) : World :=
  mkWorld (redis w) (files w) b (topic w) (committed w) (producer_closed w) (asked w).

(** The same environment with another answer to "does the upload fail". *)
Definition with_upload_raises (f : nat -> bool) (env : Env) : Env :=
  mkEnv (requests_get env) (find_all_a env) f (time_time env)
        (urlparse env) (urljoin env) (iteration_ends env).

(** [raise_for_status] lets the response through. *)
Definition status_ok (r : response) : bool :=
  negb ((400 <=? status_code r) && (status_code r <? 600)).

(** The statements of [scrape] after [delete_file(file_path)]: the count
    and time checks and the loop over the links. *)
Definition budget_and_links (env : Env) (self : Scraper) (url : string) (depth : Z)
    (response : response) : M unit :=
  redis_incr (urls_visited_key url) ;;
  urls_visited_count ← redis_get_int (urls_visited_key url);
  if urls_visited_count >=? max_urls self
  then logging (InfoMaxUrls (max_urls self) url)
  else
    late ← time_limit_reached env self;
    if (late : bool) then logging (InfoMaxTime (max_time_in_sec self))
    else
      logging (InfoScraped url depth) ;;
      for_each (find_all_a env (content response))
               (λ href, process_link env self href (depth + 1)).

(** The local path of the temporary file of [url]. *)
Definition file_path_of (url : string) : string := "./" +:+ file_name_of url.

(** The world once the page was fetched, written, uploaded (or not) and
    its temporary file removed. *)
Definition stored (env : Env) (self : Scraper) (url : string) (response : response)
    (w : World) : World :=
  let content := url +:+ newline +:+ text response in
  mkWorld (redis w)
          (delete (file_path_of url) (<[file_path_of url := content]> (files w)))
          (if upload_raises env (S (asked w)) then bucket w
           else <[(bucket_name self, file_name_of url) := content]> (bucket w))
          (topic w) (committed w) (producer_closed w) (S (S (asked w))).

(** The line logged by the upload step. *)
Definition upload_line (env : Env) (self : Scraper) (url : string) (w : World) : log_line :=
  if upload_raises env (S (asked w)) then ErrorUploading S3UploadFailed
  else InfoUploaded ("https://" +:+ bucket_name self +:+ ".s3.amazonaws.com/"
                     +:+ file_name_of url).

(** The trace of [scrape] up to and including [delete_file(file_path)]. *)
Definition store_trace (env : Env) (self : Scraper) (url : string) (w : World) : list event :=
  [EvHttpGet url; EvFileWrite (file_path_of url); EvLog (PrintSaveToS3 url);
   EvUpload (file_path_of url) (bucket_name self) (file_name_of url);
   EvLog (upload_line env self url w);
   EvFileRemove (file_path_of url); EvLog (PrintFileDeleted (file_path_of url))].

(** Why the two statements under [try] fail on answer [asked w], if they do. *)
Definition fetch_failure (env : Env) (w : World) (url : string) : option exn :=
  match requests_get env (asked w) url with
  | None => Some RequestException
  | Some r => if status_ok r then None else Some HTTPError
  end.

(** The visited counter of [url] as INCR sees it: 0 for a missing key,
    nothing for a value INCR rejects. *)
Definition visited_count (url : string) (w : World) : option Z :=
  match redis w !! urls_visited_key url with
  | None => Some 0
  | Some (RInt c) => if (int64_min <=? c) && (c <? int64_max) then Some c else None
  | Some _ => None
  end.

(** The interactions of [process_link]. *)
Definition is_link_event (e : event) : bool :=
  match e with
  | EvSismember _ _ | EvSadd _ _ | EvSend _ => true
  | _ => false
  end.

(** The world after [sadd(visited_key, href)]. *)
Definition mark_visited (href : string) (w : World) : World :=
  set_redis (insert (visited_key href)
               (match redis w !! visited_key href with
                | Some (RSet s) => RSet ({[href]} ∪ s)
                | _ => RSet {[href]}
                end)) w.

(** The status is in the success class. *)
Definition is_2xx (r : response) : bool :=
  (200 <=? status_code r) && (status_code r <? 300).


(** Where a consumer of the group that finds no committed offset starts
    under [auto_offset_reset='earliest'], and the records from there on. *)
Definition drain_position (w : World) : nat := default 0%nat (committed w).
Definition pending (w : World) : list message := drop (drain_position w) (topic w).

(** The world after the drain: the group's offset is past every pending
    record, if there was one. *)
Definition drained (w : World) : World :=
  match pending w with
  | [] => w
  | _ :: _ => set_committed (Some (drain_position w + length (pending w))%nat) w
  end.

(** A computation that neither reads nor writes the S3 bucket. *)
Definition bucket_blind {A} (m : M A) : Prop :=
  forall w b, m (with_bucket b w)
              = mkRun (out (m w)) (with_bucket b (world (m w))) (res (m w)).

(** ** File names *)

(** [c in s] *)
Fixpoint occurs (c : Ascii.ascii) (s : string) : bool :=
  match s with
  | EmptyString => false
  | String c' s' => Ascii.eqb c' c || occurs c s'
  end.

(** The characters [create_file] turns into an underscore, and the
    underscore itself. *)
Definition is_separator (c : Ascii.ascii) : bool :=
  Ascii.eqb c "/" || Ascii.eqb c ":" || Ascii.eqb c "." || Ascii.eqb c "_".

(** Two strings of the same length that differ only where both have one
    of those characters. *)
Fixpoint alike (u u' : string) : bool :=
  match u, u' with
  | EmptyString, EmptyString => true
  | String c s, String c' s' =>
      (Ascii.eqb c c' || is_separator c && is_separator c') && alike s s'
  | _, _ => false
  end.

(** The three replacements of [create_file], before ".txt" is added. *)
Definition underscored (url : string) : string :=
  replace_char "."%char "_"%char
    (replace_char ":"%char "_"%char (replace_char "/"%char "_"%char url)).

(** [os.path.join(a, b)] of posixpath. *)
Definition os_path_join (a b : string) : string :=
  if String.prefix "/" b then b
  else if String.eqb a "" || String.eqb (String.substring (String.length a - 1) 1 a) "/"
       then a +:+ b
       else a +:+ "/" +:+ b.

(** [delete_file(file_path)] over any behaviour of [os.remove]. *)
Definition delete_file_with (remove : string -> M unit) (file_path : string) : M unit :=
  try_except
    (remove file_path ;; logging (PrintFileDeleted file_path))
    (λ e, match e with
          | FileNotFoundError => logging (PrintFileNotFound file_path)
          | _ => logging (PrintDeleteError e)
          end).

(** A [Scraper] whose topic name reads as a URL. *)
Definition scraper_with_topic (topic : string) : Scraper :=
  {| max_depth := 2; max_urls := 5; max_time_in_sec := 30;
     kafka_topic := topic; start_time := 0%Q;
     bucket_name := "yonatangazitwebscraper" |}.

(** A URL of 252 bytes: its file name has 256. *)
Definition long_url : string :=
  "http://a.test/" +:+ string_of_list_ascii (List.repeat "a"%char 238).

(** Two pages whose URLs differ in one replaced character. *)
Definition two_alike_pages : list (string * (Z * list (option string))) :=
  [("http://a.test/", (200, [])); ("http://a_test/", (200, []))].

(** ** The read side of the API

    The handlers of [GET /file_list/] and [GET /file_list/{file_name}]
    and [get_file_content_from_s3] only read S3 and change nothing.
    They are functions of what the S3 client answers; [E] is the type of
    the exceptions boto3 raises. *)

(** [s.split(sep, 1)] for a one-character [sep]. *)
Fixpoint split_once (sep : Ascii.ascii) (s : string) : list string :=
  match s with
  | EmptyString => [EmptyString]
  | String c s' =>
      if Ascii.eqb c sep then [EmptyString; s']
      else match split_once sep s' with
           | h :: t => String c h :: t
           | [] => [String c EmptyString]
           end
  end.

Definition newline_char : Ascii.ascii := Ascii.ascii_of_nat 10.

(** The key of an entry of the S3 content, when it lies in bucket [bkt]. *)
Definition key_in (bkt : string) (p : string * string * string) : option string :=
  if decide (p.1.1 = bkt) then Some p.1.2 else None.

(** The keys of the objects of bucket [bkt], in the order S3 lists them
    (by their bytes). *)
Definition keys_of (b : gmap (string * string) string) (bkt : string) : list string :=
  merge_sort (λ k k', Is_true (String.leb k k')) (omap (key_in bkt) (map_to_list b)).

Section ReadSide.
Context {E : Type}.

(** The two calls the handlers make on [boto3.client('s3')]:
    [get_object(Bucket, Key)['Body'].read().decode('utf-8')], and the keys
    of ['Contents'] in the answer of [list_objects_v2(Bucket)], [None]
    when the answer has no ['Contents'].  [inl] is what the call raised. *)
Record S3Client : Type := mkS3Client {
  get_object : string -> string -> E + string;
  list_objects_v2 : string -> E + option (list string)
}.

(** What leaves a handler as an exception. *)
Inductive handler_exn : Type :=
  | Boto (e : E)       (* raised by boto3 outside a [try] *)
  | UnpackError.       (* ValueError: not enough values to unpack *)

(** The outcome of a handler: the exceptions written by
    [logging.error("Error retrieving file from S3: ...")], and the value
    returned or the exception raised. *)
Record Reply (A : Type) : Type := mkReply {
  logged : list E;
  answer : handler_exn + A
}.
Arguments mkReply {A} logged answer.
Arguments logged {A} r.
Arguments answer {A} r.

(** [get_file_content_from_s3(bucket_name, file_name)]; [boto3_client] is
    the outcome of [boto3.client('s3')], which precedes the [try]. *)
Definition get_file_content_from_s3 (boto3_client : E + S3Client)
    (bucket_name file_name : string) : Reply (option string) :=
  match boto3_client with
  | inl e => mkReply [] (inl (Boto e))
  | inr s3_client =>
      match get_object s3_client bucket_name file_name with
      | inr content => mkReply [] (inr (Some content))
      | inl e => mkReply [e] (inr None)
      end
  end.

(** The JSON object returned by [read_file]. *)
Inductive file_reply : Type :=
  | RawPage (raw_url raw_html : string)
  | ErrorReply (error : string).

(** The handler of [GET /file_list/{file_name}]. *)
Definition read_file (boto3_client : E + S3Client) (file_name : string) : Reply file_reply :=
  let r := get_file_content_from_s3 boto3_client "yonatangazitwebscraper" file_name in
  match answer r with
  | inl e => mkReply (logged r) (inl e)
  | inr (Some (String _ _ as file_content)) =>
      match split_once newline_char file_content with
      | [raw_url; raw_html] => mkReply (logged r) (inr (RawPage raw_url raw_html))
      | _ => mkReply (logged r) (inl UnpackError)
      end
  | inr _ => mkReply (logged r) (inr (ErrorReply "File not found"))
  end.

(** The handler of [GET /file_list/]: the value of ["files"]. *)
Definition read_files (boto3_client : E + S3Client) : Reply (list string) :=
  match boto3_client with
  | inl e => mkReply [] (inl (Boto e))
  | inr s3_client =>
      match list_objects_v2 s3_client "yonatangazitwebscraper" with
      | inl e => mkReply [] (inl (Boto e))
      | inr (Some keys) => mkReply [] (inr keys)
      | inr None => mkReply [] (inr [])
      end
  end.

(** The client of an S3 whose content is [b], all of it text: a missing
    key raises [no_such_key]; one call of [list_objects_v2] returns at
    most 1000 keys, and no ['Contents'] when there is none. *)
Definition s3_client_of (no_such_key : E) (b : gmap (string * string) string) : S3Client :=
  {| get_object := λ bkt key,
       match b !! (bkt, key) with
       | Some c => inr c
       | None => inl no_such_key
       end;
     list_objects_v2 := λ bkt,
       match take 1000 (keys_of b bkt) with
       | [] => inr None
       | keys => inr (Some keys)
       end |}.
End ReadSide.
Arguments S3Client E : clear implicits.
Arguments handler_exn E : clear implicits.
Arguments Reply E A : clear implicits.
Arguments mkReply {E A} logged answer.
Arguments logged {E A} r.
Arguments answer {E A} r.
Arguments UnpackError {E}.

(** ** What [scrape] does to the world *)

(** The response [scrape(url, depth)] goes on with in world [w], after
    [create_file]: none when the depth is refused, when the fetch fails,
    or when [open] rejects the name of the page's file. *)
Definition page_of (env : Env) (self : Scraper) (url : string) (depth : Z) (w : World)
    : option response :=
  if depth >? max_depth self then None
  else match requests_get env (asked w) url with
       | Some r => if status_ok r && file_name_fits url then Some r else None
       | None => None
       end.

(** The S3 content after [scrape(url, depth)] in world [w]. *)
Definition bucket_after (env : Env) (self : Scraper) (url : string) (depth : Z) (w : World)
    : gmap (string * string) string :=
  match page_of env self url depth w with
  | Some response =>
      if upload_raises env (S (asked w)) then bucket w
      else <[(bucket_name self, file_name_of url) := url +:+ newline +:+ text response]>
             (bucket w)
  | None => bucket w
  end.

(** The exceptions that the statements of [scrape] outside its two
    [try] blocks can raise, [create_file] apart. *)
Definition escapes (e : exn) : bool :=
  match e with
  | RedisResponseError | ValueError | ProducerClosedError => true
  | _ => false
  end.

(** The call returned, or raised one of those. *)
Definition ends_well {A} (r : result A) : bool :=
  match r with
  | Ret _ => true
  | Raise e => escapes e
  | Block => false
  end.

(** Every visited set holds at most the link its key is made of. *)
Definition one_link_per_key (w : World) : Prop :=
  forall h s, redis w !! visited_key h = Some (RSet s) -> s ⊆ {[h]}.

(** The world after a sequence of calls of [scrape], each by its own
    [Scraper] object, whatever each call returned or raised. *)
Fixpoint after_scrapes (env : Env) (tasks : list (Scraper * string * Z)) (w : World) : World :=
  match tasks with
  | [] => w
  | (self, url, depth) :: tasks' => after_scrapes env tasks' (world (scrape env self url depth w))
  end.

(** The counter of [url] makes the comparison with [limit] succeed after
    one more increment, or makes the increment fail. *)
Definition count_exhausted (limit : Z) (url : string) (w : World) : Prop :=
  match visited_count url w with
  | Some c => limit <= c + 1
  | None => True
  end.

(** * Theorems *)

(** ** Rules for runs *)

Lemma bind_run {A B} (m : M A) (k : A -> M B) w o w' a :
  m w = mkRun o w' (Ret a) -> (m ≫= k) w = prepend o (k a w').
Proof. unfold mbind, M_bind, bind, prepend. intros ->. reflexivity. Qed.

Lemma bind_raise {A B} (m : M A) (k : A -> M B) w o w' e :
  m w = mkRun o w' (Raise e) -> (m ≫= k) w = mkRun o w' (Raise e).
Proof. unfold mbind, M_bind, bind. intros ->. reflexivity. Qed.

Lemma prepend_prepend {A} o1 o2 (r : Run A) :
  prepend o1 (prepend o2 r) = prepend (o1 ++ o2) r.
Proof. unfold prepend. simpl. by rewrite app_assoc. Qed.

(** Unfolding the monad on a short block. *)
Ltac run :=
  cbv beta iota zeta delta [mbind M_bind bind mret M_ret ret raise block emit
    get_world put_world try_except ask logging attempt prepend tick
    set_redis set_files set_bucket set_topic set_committed set_producer_closed];
  cbn [out world res redis files bucket topic committed producer_closed asked app].

(** ** The steps of [scrape] up to the counter *)

Lemma fetch_ok env url w resp :
  requests_get env (asked w) url = Some resp ->
  status_ok resp = true ->
  fetch env url w = mkRun [EvHttpGet url] (tick w) (Ret resp).
Proof.
  intros Hg Hs. unfold fetch, http_get, raise_for_status, status_ok in *.
  run. rewrite Hg. run.
  destruct ((400 <=? status_code resp) && (status_code resp <? 600)); [done|].
  reflexivity.
Qed.

Lemma fetch_http_error env url w resp :
  requests_get env (asked w) url = Some resp ->
  status_ok resp = false ->
  fetch env url w = mkRun [EvHttpGet url] (tick w) (Raise HTTPError).
Proof.
  intros Hg Hs. unfold fetch, http_get, raise_for_status, status_ok in *.
  run. rewrite Hg. run.
  destruct ((400 <=? status_code resp) && (status_code resp <? 600)); [|done].
  reflexivity.
Qed.

Lemma fetch_transport_error env url w :
  requests_get env (asked w) url = None ->
  fetch env url w = mkRun [EvHttpGet url] (tick w) (Raise RequestException).
Proof.
  intros Hg. unfold fetch, http_get. run. rewrite Hg. reflexivity.
Qed.

Lemma create_file_run url raw w :
  file_name_fits url = true ->
  create_file url raw w
  = mkRun [EvFileWrite (file_path_of url)]
          (set_files (insert (file_path_of url) (url +:+ newline +:+ raw)) w)
          (Ret (file_path_of url, file_name_of url)).
Proof. intros Hn. unfold create_file. rewrite Hn. reflexivity. Qed.

Lemma create_file_too_long url raw w :
  file_name_fits url = false ->
  create_file url raw w = mkRun [] w (Raise OSError).
Proof. intros Hn. unfold create_file. rewrite Hn. reflexivity. Qed.

Lemma save_to_s3_run env self path name c w :
  files w !! path = Some c ->
  save_to_s3 env self path name w
  = mkRun [EvUpload path (bucket_name self) name;
           EvLog (if upload_raises env (asked w) then ErrorUploading S3UploadFailed
                  else InfoUploaded ("https://" +:+ bucket_name self +:+
                                     ".s3.amazonaws.com/" +:+ name))]
          (mkWorld (redis w) (files w)
             (if upload_raises env (asked w) then bucket w
              else <[(bucket_name self, name) := c]> (bucket w))
             (topic w) (committed w) (producer_closed w) (S (asked w)))
          (Ret tt).
Proof.
  intros Hf. unfold save_to_s3, s3_upload_file. run.
  destruct (upload_raises env (asked w)); run; [reflexivity|].
  rewrite Hf. reflexivity.
Qed.

Lemma delete_file_run path c w :
  files w !! path = Some c ->
  delete_file path w
  = mkRun [EvFileRemove path; EvLog (PrintFileDeleted path)]
          (set_files (delete path) w) (Ret tt).
Proof.
  intros Hf. unfold delete_file, os_remove. run. rewrite Hf. reflexivity.
Qed.

Lemma scrape_fetched env self url depth w resp :
  depth <= max_depth self ->
  requests_get env (asked w) url = Some resp ->
  status_ok resp = true ->
  file_name_fits url = true ->
  scrape env self url depth w
  = prepend (store_trace env self url w)
            (budget_and_links env self url depth resp (stored env self url resp w)).
Proof.
  intros Hd Hg Hs Hn. unfold scrape.
  destruct (depth >? max_depth self) eqn:E; [lia|]. clear E.
  erewrite bind_run; cycle 1.
  { unfold try_except. erewrite bind_run by (by apply fetch_ok).
    reflexivity. }
  cbn [prepend out world res app].
  rewrite (bind_run _ _ _ _ _ _ (create_file_run _ _ _ Hn)).
  erewrite bind_run by reflexivity.
  erewrite (bind_run (save_to_s3 _ _ _ _)); cycle 1.
  { eapply save_to_s3_run. cbn. apply lookup_insert_eq. }
  erewrite (bind_run (delete_file _)); cycle 1.
  { eapply delete_file_run. cbn. apply lookup_insert_eq. }
  unfold prepend. cbn [out world res app]. unfold store_trace, stored, upload_line.
  cbn. reflexivity.
Qed.

(** The page was fetched, but its file name is too long for [open]. *)
Lemma scrape_unwritable_run env self url depth w resp :
  depth <= max_depth self ->
  requests_get env (asked w) url = Some resp ->
  status_ok resp = true ->
  file_name_fits url = false ->
  scrape env self url depth w = mkRun [EvHttpGet url] (tick w) (Raise OSError).
Proof.
  intros Hd Hg Hs Hn. unfold scrape.
  destruct (depth >? max_depth self) eqn:E; [lia|]. clear E.
  erewrite bind_run; cycle 1.
  { unfold try_except. erewrite bind_run by (by apply fetch_ok).
    reflexivity. }
  cbn [prepend out world res app].
  rewrite (bind_raise _ _ _ _ _ _ (create_file_too_long _ _ _ Hn)).
  reflexivity.
Qed.

Lemma redis_incr_run url c w :
  visited_count url w = Some c ->
  redis_incr (urls_visited_key url) w
  = mkRun [EvIncr (urls_visited_key url)]
          (set_redis (insert (urls_visited_key url) (RInt (c + 1))) w) (Ret (c + 1)).
Proof.
  unfold visited_count, redis_incr. run.
  destruct (redis w !! urls_visited_key url) as [[n| |]|]; try done.
  - destruct ((int64_min <=? n) && (n <? int64_max)); [|done].
    intros [= ->]. reflexivity.
  - intros [= <-]. reflexivity.
Qed.

Lemma redis_get_int_run key n w :
  redis w !! key = Some (RInt n) ->
  redis_get_int key w = mkRun [EvGet key] w (Ret n).
Proof. intros H. unfold redis_get_int. run. rewrite H. reflexivity. Qed.

(** The counter step of [scrape]: INCR, then the read that feeds the comparison. *)
Lemma count_run env self url depth resp c w :
  visited_count url w = Some c ->
  budget_and_links env self url depth resp w
  = prepend [EvIncr (urls_visited_key url); EvGet (urls_visited_key url)]
      ((if c + 1 >=? max_urls self
        then logging (InfoMaxUrls (max_urls self) url)
        else
          late ← time_limit_reached env self;
          if (late : bool) then logging (InfoMaxTime (max_time_in_sec self))
          else
            logging (InfoScraped url depth) ;;
            for_each (find_all_a env (content resp))
                     (λ href, process_link env self href (depth + 1)))
         (set_redis (insert (urls_visited_key url) (RInt (c + 1))) w)).
Proof.
  intros Hc. unfold budget_and_links.
  rewrite (bind_run _ _ _ _ _ _ (redis_incr_run _ _ _ Hc)).
  erewrite bind_run; cycle 1.
  { apply redis_get_int_run. cbn. apply lookup_insert_eq. }
  rewrite prepend_prepend. reflexivity.
Qed.


(** ** One call of [process_link] *)

Lemma visited_key_inj h h' : visited_key h = visited_key h' -> h = h'.
Proof. unfold visited_key. cbn. intros H. by simplify_eq. Qed.

Lemma visited_key_not_counter h url : urls_visited_key url <> visited_key h.
Proof. unfold visited_key, urls_visited_key. cbn. intros H. discriminate H. Qed.

Lemma process_link_none env self depth w :
  process_link env self None depth w = mkRun [] w (Ret tt).
Proof. reflexivity. Qed.

Lemma process_link_empty env self depth w :
  process_link env self (Some EmptyString) depth w = mkRun [] w (Ret tt).
Proof. reflexivity. Qed.

Lemma process_link_visited env self h depth w :
  h <> EmptyString ->
  visited h w = true ->
  process_link env self (Some h) depth w
  = mkRun [EvSismember (visited_key h) h] w (Ret tt).
Proof.
  intros Hne Hv. unfold visited in Hv. destruct h as [|a h]; [done|].
  unfold process_link, redis_sismember. run.
  destruct (redis w !! visited_key (String a h)) as [[| s |]|]; try done.
  run. rewrite Hv. reflexivity.
Qed.

Lemma process_link_wrong_type env self h depth w :
  h <> EmptyString ->
  absent h w = false ->
  visited h w = false ->
  process_link env self (Some h) depth w
  = mkRun [EvSismember (visited_key h) h] w (Raise RedisResponseError).
Proof.
  intros Hne Ha Hv. unfold visited, absent in *. destruct h as [|a h]; [done|].
  unfold process_link, redis_sismember. run.
  destruct (redis w !! visited_key (String a h)) as [[| s |]|]; try done.
  rewrite Hv in Ha. done.
Qed.

Lemma process_link_absent env self h depth w :
  h <> EmptyString ->
  absent h w = true ->
  process_link env self (Some h) depth w
  = prepend [EvSismember (visited_key h) h; EvSadd (visited_key h) h]
            (publish env self h depth (mark_visited h w)).
Proof.
  intros Hne Ha. unfold absent in Ha. destruct h as [|a h]; [done|].
  unfold process_link.
  set (href := String a h) in *.
  assert (Hs : redis_sismember (visited_key href) href w
               = mkRun [EvSismember (visited_key href) href] w (Ret false)).
  { unfold redis_sismember. run.
    destruct (redis w !! visited_key href) as [[| s |]|]; try done.
    run. destruct (bool_decide (href ∈ s)); done. }
  rewrite (bind_run _ _ _ _ _ _ Hs).
  assert (Hi : redis_sadd (visited_key href) href w
               = mkRun [EvSadd (visited_key href) href] (mark_visited href w) (Ret tt)).
  { unfold redis_sadd, mark_visited. run.
    destruct (redis w !! visited_key href) as [[| s |]|]; try done. }
  rewrite (bind_run _ _ _ _ _ _ Hi).
  rewrite prepend_prepend. reflexivity.
Qed.

(** [publish] sends at most one record and changes nothing but the topic. *)
Ltac run_steps :=
  cbv beta iota zeta delta [mbind M_bind bind mret M_ret ret raise block emit
    get_world put_world try_except ask logging attempt prepend];
  cbn [out world res app].

Lemma publish_spec env self href depth w :
  let r := publish env self href depth w in
  out r = map EvSend (sent (out r))
  /\ (length (sent (out r)) <= 1)%nat
  /\ world r = set_topic (λ t, t ++ sent (out r)) w.
Proof.
  assert (Hw : w = set_topic (λ t, t ++ []) w).
  { destruct w. unfold set_topic. cbn. by rewrite app_nil_r. }
  assert (Hnil : ([] : list event) = map EvSend (sent [])
                 /\ (length (sent []) <= 1)%nat
                 /\ w = set_topic (λ t, t ++ sent []) w).
  { repeat split; [cbn; lia | exact Hw]. }
  unfold publish, or_value_error, producer_send.
  destruct (urlparse env href) as [p|]; run_steps; [|exact Hnil].
  destruct (decide (scheme p = "")); run_steps.
  - destruct (urlparse env (kafka_topic self)) as [b|]; run_steps; [|exact Hnil].
    destruct (urljoin env _ href) as [j|]; run_steps; [|exact Hnil].
    destruct (producer_closed w); run_steps; [exact Hnil|].
    repeat split; cbn; lia.
  - destruct (producer_closed w); run_steps; [exact Hnil|].
    repeat split; cbn; lia.
Qed.

Lemma link_events_sends ms : Forall (λ e, is_link_event e = true) (map EvSend ms).
Proof. induction ms; constructor; auto. Qed.

Lemma absent_mark_visited h w : absent h (mark_visited h w) = false.
Proof.
  unfold absent, mark_visited. cbn. rewrite lookup_insert_eq.
  destruct (redis w !! visited_key h) as [[| s |]|];
    apply negb_false_iff, bool_decide_eq_true_2; set_solver.
Qed.

(** What one call of [process_link] can do, whatever the world. *)
Lemma process_link_summary env self href depth w :
  let r := process_link env self href depth w in
  Forall (λ e, is_link_event e = true) (out r)
  /\ (length (sent (out r)) <= 1)%nat
  /\ world r = set_topic (λ t, t ++ sent (out r))
                 (set_redis (λ _, redis (world r)) w)
  /\ (forall k, (forall h, href = Some h -> k <> visited_key h) ->
        redis (world r) !! k = redis w !! k)
  /\ (forall h, href = Some h -> h <> EmptyString -> absent h (world r) = false)
  /\ (forall h, href = Some h -> absent h w = false ->
        sent (out r) = [] /\ world r = w).
Proof.
  assert (Hw : w = set_topic (λ t, t ++ []) (set_redis (λ _, redis w) w)).
  { destruct w. unfold set_topic, set_redis. cbn. by rewrite app_nil_r. }
  destruct href as [h|]; [destruct (decide (h = EmptyString)) as [->|Hne]|].
  - cbn zeta. rewrite process_link_empty. cbn [out world res].
    refine (conj _ (conj _ (conj _ (conj _ (conj _ _))))); auto.
    intros h [= <-]. done.
  - destruct (absent h w) eqn:Ha.
    + cbn zeta. rewrite process_link_absent by done.
      destruct (publish_spec env self h depth (mark_visited h w)) as (Ho & Hl & Hp).
      cbn zeta in *. unfold prepend. cbn [out world res].
      set (p := publish env self h depth (mark_visited h w)) in *.
      assert (Hs : sent ([EvSismember (visited_key h) h; EvSadd (visited_key h) h] ++ out p)
                   = sent (out p)) by reflexivity.
      rewrite Hs. refine (conj _ (conj _ (conj _ (conj _ (conj _ _))))).
      * repeat constructor. rewrite Ho. apply link_events_sends.
      * exact Hl.
      * rewrite Hp. reflexivity.
      * intros k Hk. rewrite Hp. unfold mark_visited. cbn.
        apply lookup_insert_ne, not_eq_sym, Hk. reflexivity.
      * intros h' [= <-] _. rewrite Hp. apply absent_mark_visited.
      * intros h' [= <-]. congruence.
    + destruct (visited h w) eqn:Hv; cbn zeta.
      * rewrite process_link_visited by done. cbn [out world res].
        refine (conj _ (conj _ (conj _ (conj _ (conj _ _))))); auto.
        intros h' [= <-] _. done.
      * rewrite process_link_wrong_type by done. cbn [out world res].
        refine (conj _ (conj _ (conj _ (conj _ (conj _ _))))); auto.
        intros h' [= <-] _. done.
  - cbn zeta. rewrite process_link_none. cbn [out world res].
    refine (conj _ (conj _ (conj _ (conj _ (conj _ _))))); auto; done.
Qed.

(** ** The loop over the links, the clock, the counter *)

(** The loop over the links of a page. *)
Lemma links_summary env self links depth w :
  let r := for_each links (λ href, process_link env self href depth) w in
  Forall (λ e, is_link_event e = true) (out r)
  /\ world r = set_topic (λ t, t ++ sent (out r)) (set_redis (λ _, redis (world r)) w)
  /\ (forall k, (forall h, k <> visited_key h) -> redis (world r) !! k = redis w !! k).
Proof.
  revert w. induction links as [|href links IH]; intros w.
  - cbn. refine (conj _ (conj _ _)); auto.
    destruct w. unfold set_topic, set_redis. cbn. by rewrite app_nil_r.
  - cbn [for_each]. cbn zeta.
    destruct (process_link_summary env self href depth w) as (Hf & _ & Hw & Hk & _).
    cbn zeta in *. unfold mbind, M_bind, bind.
    set (p := process_link env self href depth w) in *.
    destruct (res p) as [[]| |] eqn:Hr; cbn [out world res].
    + destruct (IH (world p)) as (Hf' & Hw' & Hk'). cbn zeta in *.
      set (q := for_each links _ (world p)) in *.
      refine (conj _ (conj _ _)).
      * apply Forall_app_2; auto.
      * rewrite Hw'. rewrite Hw at 1. unfold sent. rewrite omap_app.
        unfold set_topic, set_redis. cbn. by rewrite app_assoc.
      * intros k Hn. rewrite Hk' by done. apply Hk. intros h _. apply Hn.
    + refine (conj Hf (conj Hw _)). intros k Hn. apply Hk. intros h _. apply Hn.
    + refine (conj Hf (conj Hw _)). intros k Hn. apply Hk. intros h _. apply Hn.
Qed.

Lemma link_events_quiet tr :
  Forall (λ e, is_link_event e = true) tr ->
  budget_events tr = [] /\ fetched tr = [] /\ (forall l, ~ In (EvLog l) tr).
Proof.
  induction 1 as [|e tr He _ (IHb & IHf & IHl)]; [by auto|].
  destruct e; try discriminate He; cbn; (split; [exact IHb|split; [exact IHf|]]).
  all: intros l [H|H]; [discriminate H | by apply (IHl l)].
Qed.

Lemma time_limit_run env self w :
  time_limit_reached env self w
  = if decide (max_time_in_sec self = 0) then mkRun [] w (Ret false)
    else mkRun [EvTime] (tick w) (Ret (deadline_passed env self (asked w))).
Proof.
  unfold time_limit_reached. destruct (decide (max_time_in_sec self = 0)); reflexivity.
Qed.

Lemma count_error env self url depth resp w :
  visited_count url w = None ->
  budget_and_links env self url depth resp w
  = mkRun [EvIncr (urls_visited_key url)] w (Raise RedisResponseError).
Proof.
  intros Hc. unfold budget_and_links. eapply bind_raise.
  unfold visited_count, redis_incr in *. run.
  destruct (redis w !! urls_visited_key url) as [[n| |]|]; try done.
  destruct ((int64_min <=? n) && (n <? int64_max)); done.
Qed.

(** ** The ways [scrape] ends before the counter *)

Lemma scrape_skip_run env self url depth w :
  depth > max_depth self ->
  scrape env self url depth w
  = mkRun [EvLog (InfoDepthExceeded depth (max_depth self))] w (Ret tt).
Proof.
  intros H. unfold scrape.
  destruct (depth >? max_depth self) eqn:E; [reflexivity | lia].
Qed.

Lemma scrape_failure_run env self url depth w e :
  depth <= max_depth self ->
  fetch_failure env w url = Some e ->
  scrape env self url depth w
  = mkRun [EvHttpGet url; EvLog (ErrorScraping url e)] (tick w) (Ret tt).
Proof.
  intros Hd Hf.
  unfold scrape. destruct (depth >? max_depth self) eqn:E; [lia|]. clear E.
  unfold fetch_failure in Hf.
  destruct (requests_get env (asked w) url) as [resp|] eqn:Hg.
  - destruct (status_ok resp) eqn:Hs; [done|]. injection Hf as <-.
    erewrite bind_run; cycle 1.
    { unfold try_except. erewrite bind_raise by (by eapply fetch_http_error).
      reflexivity. }
    reflexivity.
  - injection Hf as <-.
    erewrite bind_run; cycle 1.
    { unfold try_except. erewrite bind_raise by (by eapply fetch_transport_error).
      reflexivity. }
    reflexivity.
Qed.

Lemma fetch_failure_none env w url :
  fetch_failure env w url = None ->
  exists resp, requests_get env (asked w) url = Some resp /\ status_ok resp = true.
Proof.
  unfold fetch_failure. destruct (requests_get env (asked w) url) as [r|]; [|done].
  destruct (status_ok r) eqn:E; [|done]. eauto.
Qed.

Lemma time_limit_late env self w :
  max_time_in_sec self <> 0 ->
  deadline_passed env self (asked w) = true ->
  time_limit_reached env self w = mkRun [EvTime] (tick w) (Ret true).
Proof.
  intros Hmax Hlate. rewrite time_limit_run.
  destruct (decide (max_time_in_sec self = 0)) as [E|_]; [contradiction|].
  by rewrite Hlate.
Qed.


Ltac not_logged :=
  let H := fresh in
  cbn [In app out store_trace prepend logging emit]; unfold upload_line; intros H;
  repeat match goal with
         | H : _ \/ _ |- _ => destruct H as [H|H]
         | H : EvLog (if ?b then _ else _) = _ |- _ => destruct b
         | H : _ = _ |- _ => discriminate H
         | H : False |- _ => destruct H
         end.


(** ** The depth bound *)

(** C1. A task whose depth is strictly greater than [max_depth] is never
    fetched: [scrape] only logs the refusal and returns; it performs no
    HTTP request, leaves Redis (hence every counter) and the whole world
    unchanged, and publishes no link. *)
Theorem scrape_depth_exceeded env self url depth w :
  depth > max_depth self ->
  scrape env self url depth w
    = mkRun [EvLog (InfoDepthExceeded depth (max_depth self))] w (Ret tt)
  /\ fetched (out (scrape env self url depth w)) = []
  /\ sent (out (scrape env self url depth w)) = []
  /\ redis (world (scrape env self url depth w)) = redis w
  /\ topic (world (scrape env self url depth w)) = topic w.
Proof.
  intros H. rewrite (scrape_skip_run env self url depth w H). by repeat split.
Qed.

Lemma scrape_depth_exceeded_witness :
  scrape (Example.env_of Example.plain_site false Example.on_time)
         (Example.scraper_at 0%Q) Example.page_url 3 Example.empty_world
    = mkRun [EvLog (InfoDepthExceeded 3 2)] Example.empty_world (Ret tt)
  /\ fetched (out (scrape (Example.env_of Example.plain_site false Example.on_time)
         (Example.scraper_at 0%Q) Example.page_url 3 Example.empty_world)) = []
  /\ sent (out (scrape (Example.env_of Example.plain_site false Example.on_time)
         (Example.scraper_at 0%Q) Example.page_url 3 Example.empty_world)) = []
  /\ redis (world (scrape (Example.env_of Example.plain_site false Example.on_time)
         (Example.scraper_at 0%Q) Example.page_url 3 Example.empty_world))
     = redis Example.empty_world
  /\ topic (world (scrape (Example.env_of Example.plain_site false Example.on_time)
         (Example.scraper_at 0%Q) Example.page_url 3 Example.empty_world))
     = topic Example.empty_world.
Proof.
  apply (scrape_depth_exceeded
           (Example.env_of Example.plain_site false Example.on_time)
           (Example.scraper_at 0%Q) Example.page_url 3 Example.empty_world).
  reflexivity.
Defined.

(** ** The deadline *)

(** C2, as stated, fails: a thousand seconds after the start, with
    [max_time_in_sec = 30], [scrape] still requests the page of a task
    within the depth bound. *)
Lemma fetch_after_deadline :
  (forall n, deadline_passed (Example.env_of Example.plain_site false Example.late)
                             (Example.scraper_at 0%Q) n = true)
  /\ fetched (out (scrape (Example.env_of Example.plain_site false Example.late)
                          (Example.scraper_at 0%Q) Example.page_url 0
                          Example.empty_world))
     = [Example.page_url].
Proof. split; [intros n; reflexivity | vm_compute; reflexivity]. Qed.

(** C2, amended. Once the elapsed time has reached a non-zero
    [max_time_in_sec], [scrape] publishes no link and leaves the topic as
    it is; the HTTP request of a task within the depth bound is still
    made, because the time check runs after the fetch. *)
Theorem scrape_after_deadline env self url depth w :
  max_time_in_sec self <> 0 ->
  (forall n, (asked w <= n)%nat -> deadline_passed env self n = true) ->
  let r := scrape env self url depth w in
  (depth <= max_depth self -> fetched (out r) = [url])
  /\ sent (out r) = []
  /\ topic (world r) = topic w.
Proof.
  intros Hmax Hlate r. subst r.
  destruct (decide (depth > max_depth self)) as [Hd|Hd].
  { rewrite (scrape_skip_run env self url depth w Hd).
    split; [lia|]. by split. }
  assert (Hd' : depth <= max_depth self) by lia.
  destruct (fetch_failure env w url) as [e|] eqn:Hf.
  { rewrite (scrape_failure_run env self url depth w e Hd' Hf).
    by repeat split. }
  destruct (fetch_failure_none _ _ _ Hf) as (resp & Hg & Hs).
  destruct (file_name_fits url) eqn:Hn; cycle 1.
  { rewrite (scrape_unwritable_run _ _ _ _ _ _ Hd' Hg Hs Hn). by repeat split. }
  rewrite (scrape_fetched _ _ _ _ _ _ Hd' Hg Hs Hn).
  destruct (visited_count url w) as [c|] eqn:Hc.
  - rewrite (count_run _ _ _ _ _ c) by exact Hc.
    destruct (c + 1 >=? max_urls self); [by repeat split|].
    erewrite bind_run; cycle 1.
    { apply time_limit_late; [done|]. apply Hlate. cbn. lia. }
    by repeat split.
  - rewrite count_error by exact Hc. by repeat split.
Qed.

Lemma scrape_after_deadline_witness :
  (0 <= 2 -> fetched (out (scrape (Example.env_of Example.linked_site false Example.late)
                            (Example.scraper_at 0%Q) Example.page_url 0
                            Example.empty_world)) = [Example.page_url])
  /\ sent (out (scrape (Example.env_of Example.linked_site false Example.late)
                       (Example.scraper_at 0%Q) Example.page_url 0
                       Example.empty_world)) = []
  /\ topic (world (scrape (Example.env_of Example.linked_site false Example.late)
                          (Example.scraper_at 0%Q) Example.page_url 0
                          Example.empty_world)) = topic Example.empty_world.
Proof.
  apply (scrape_after_deadline
           (Example.env_of Example.linked_site false Example.late)
           (Example.scraper_at 0%Q) Example.page_url 0 Example.empty_world).
  - vm_compute. discriminate.
  - intros n _. reflexivity.
Defined.

(** ** The count limit *)

(** C3, as stated, fails: with [max_urls = 5] and a counter already at 5,
    [scrape] requests the page once more and counts it. *)
Lemma fetch_beyond_count_limit :
  visited_count Example.page_url (Example.world_with_count 5) = Some 5
  /\ max_urls (Example.scraper_at 0%Q) = 5
  /\ fetched (out (scrape (Example.env_of Example.plain_site false Example.on_time)
                          (Example.scraper_at 0%Q) Example.page_url 0
                          (Example.world_with_count 5)))
     = [Example.page_url]
  /\ redis (world (scrape (Example.env_of Example.plain_site false Example.on_time)
                          (Example.scraper_at 0%Q) Example.page_url 0
                          (Example.world_with_count 5)))
       !! urls_visited_key Example.page_url = Some (RInt 6).
Proof. repeat split; vm_compute; reflexivity. Qed.

(** C3, amended. When the counter of the URL is such that the value read
    back after one more increment reaches [max_urls], [scrape] of a task
    within the depth bound whose fetch succeeds stops before the links:
    the page is requested, nothing is published.  When the page's file
    can be created, the fetch is counted and [scrape] returns; when
    [open] rejects the file name, [scrape] raises after the fetch and
    counts nothing. *)
Theorem scrape_count_limit env self url depth w resp c :
  depth <= max_depth self ->
  requests_get env (asked w) url = Some resp ->
  status_ok resp = true ->
  visited_count url w = Some c ->
  max_urls self <= c + 1 ->
  let r := scrape env self url depth w in
  fetched (out r) = [url]
  /\ sent (out r) = []
  /\ topic (world r) = topic w
  /\ (file_name_fits url = true ->
      redis (world r) = <[urls_visited_key url := RInt (c + 1)]> (redis w)
      /\ res r = Ret tt)
  /\ (file_name_fits url = false ->
      redis (world r) = redis w /\ res r = Raise OSError).
Proof.
  intros Hd Hg Hs Hc Hm r. subst r.
  destruct (file_name_fits url) eqn:Hn.
  - rewrite (scrape_fetched _ _ _ _ _ _ Hd Hg Hs Hn).
    rewrite (count_run _ _ _ _ _ c) by exact Hc.
    destruct (c + 1 >=? max_urls self) eqn:E; [|lia].
    by repeat split.
  - rewrite (scrape_unwritable_run _ _ _ _ _ _ Hd Hg Hs Hn). by repeat split.
Qed.

Lemma scrape_count_limit_witness :
  let r := scrape (Example.env_of Example.linked_site false Example.on_time)
                  (Example.scraper_at 0%Q) Example.page_url 0
                  (Example.world_with_count 4) in
  fetched (out r) = [Example.page_url]
  /\ sent (out r) = []
  /\ topic (world r) = topic (Example.world_with_count 4)
  /\ (file_name_fits Example.page_url = true ->
      redis (world r) = <[urls_visited_key Example.page_url := RInt (4 + 1)]>
                          (redis (Example.world_with_count 4))
      /\ res r = Ret tt)
  /\ (file_name_fits Example.page_url = false ->
      redis (world r) = redis (Example.world_with_count 4) /\ res r = Raise OSError).
Proof.
  apply (scrape_count_limit
           (Example.env_of Example.linked_site false Example.on_time)
           (Example.scraper_at 0%Q) Example.page_url 0 (Example.world_with_count 4)
           (Response 200 Example.page_url Example.page_url) 4).
  - vm_compute. discriminate.
  - vm_compute. reflexivity.
  - reflexivity.
  - vm_compute. reflexivity.
  - vm_compute. discriminate.
Defined.

(** ** The order of the checks *)

(** C5, as stated, fails: on an admitted task the HTTP request comes
    first, the counter is incremented before it is read for the limit
    comparison, and the clock is read last. *)
Lemma fetch_before_budget_checks :
  let r := scrape (Example.env_of Example.plain_site false Example.on_time)
                  (Example.scraper_at 0%Q) Example.page_url 0 Example.empty_world in
  budget_events (out r)
    = [EvHttpGet Example.page_url; EvIncr (urls_visited_key Example.page_url);
       EvGet (urls_visited_key Example.page_url); EvTime]
  /\ last (out r) = Some (EvLog (InfoScraped Example.page_url 0)).
Proof. split; vm_compute; reflexivity. Qed.

(** On an admitted task the interactions come in the order of the four
    statements, and the counter was incremented before the comparison. *)
Lemma scrape_admitted_order env self url depth w :
  let r := scrape env self url depth w in
  let key := urls_visited_key url in
  (depth > max_depth self -> budget_events (out r) = [])
  /\ budget_events (out r) `prefix_of` [EvHttpGet url; EvIncr key; EvGet key; EvTime]
  /\ (In (EvLog (InfoScraped url depth)) (out r) ->
      budget_events (out r)
        = [EvHttpGet url; EvIncr key; EvGet key]
          ++ (if decide (max_time_in_sec self = 0) then [] else [EvTime])
      /\ exists c, visited_count url w = Some c
                   /\ c + 1 < max_urls self
                   /\ redis (world r) !! key = Some (RInt (c + 1))).
Proof.
  intros r key. subst r key.
  destruct (decide (depth > max_depth self)) as [Hd|Hd].
  { rewrite (scrape_skip_run env self url depth w Hd). cbn [out].
    split; [done|]. split; [by eexists|]. not_logged. }
  split; [done|].
  assert (Hd' : depth <= max_depth self) by lia.
  destruct (fetch_failure env w url) as [e|] eqn:Hf.
  { rewrite (scrape_failure_run env self url depth w e Hd' Hf). cbn [out].
    split; [by eexists|]. not_logged. }
  destruct (fetch_failure_none _ _ _ Hf) as (resp & Hg & Hs).
  destruct (file_name_fits url) eqn:Hn; cycle 1.
  { rewrite (scrape_unwritable_run _ _ _ _ _ _ Hd' Hg Hs Hn). cbn [out].
    split; [by eexists|]. not_logged. }
  rewrite (scrape_fetched _ _ _ _ _ _ Hd' Hg Hs Hn).
  destruct (visited_count url w) as [c|] eqn:Hc.
  2:{ rewrite count_error by exact Hc. split; [by eexists|]. not_logged. }
  rewrite (count_run _ _ _ _ _ c) by exact Hc.
  destruct (c + 1 >=? max_urls self) eqn:Hm.
  { split; [by eexists|]. not_logged. }
  destruct (decide (max_time_in_sec self = 0)) as [Hz|Hz].
  - erewrite bind_run; cycle 1.
    { rewrite time_limit_run.
      destruct (decide (max_time_in_sec self = 0)) as [_|E]; [reflexivity|contradiction]. }
    cbn iota. erewrite bind_run by reflexivity.
    match goal with |- context [for_each ?l ?f ?w0] =>
      destruct (links_summary env self l (depth + 1) w0) as (Hl & Hw & Hk);
      set (q := for_each l f w0) in * end.
    cbn zeta in *.
    destruct (link_events_quiet _ Hl) as (Hb & _ & _).
    unfold prepend, store_trace.
    cbn [out world res app budget_events List.filter is_budget_event].
    fold (budget_events (out q)). rewrite Hb.
    split; [by eexists|]. intros _. split; [done|].
    exists c. split; [done|]. split; [lia|].
    rewrite Hk by (intros h; apply visited_key_not_counter).
    cbn. apply lookup_insert_eq.
  - erewrite bind_run; cycle 1.
    { rewrite time_limit_run.
      destruct (decide (max_time_in_sec self = 0)) as [E|_]; [contradiction|reflexivity]. }
    destruct (deadline_passed env self _) eqn:Hdl.
    { split; [by eexists|]. not_logged. }
    erewrite bind_run by reflexivity.
    match goal with |- context [for_each ?l ?f ?w0] =>
      destruct (links_summary env self l (depth + 1) w0) as (Hl & Hw & Hk);
      set (q := for_each l f w0) in * end.
    cbn zeta in *.
    destruct (link_events_quiet _ Hl) as (Hb & _ & _).
    unfold prepend, store_trace.
    cbn [out world res app budget_events List.filter is_budget_event].
    fold (budget_events (out q)). rewrite Hb.
    split; [by eexists|]. intros _. split; [done|].
    exists c. split; [done|]. split; [lia|].
    rewrite Hk by (intros h; apply visited_key_not_counter).
    cbn. apply lookup_insert_eq.
Qed.

(** Which of the four interactions a task within the depth bound goes
    through, exactly. *)
Lemma scrape_budget_events env self url depth w :
  depth <= max_depth self ->
  let r := scrape env self url depth w in
  let key := urls_visited_key url in
  match page_of env self url depth w with
  | None => budget_events (out r) = [EvHttpGet url]
  | Some _ =>
      match visited_count url w with
      | None =>
          budget_events (out r) = [EvHttpGet url; EvIncr key]
          /\ res r = Raise RedisResponseError
      | Some c =>
          redis (world r) !! key = Some (RInt (c + 1))
          /\ budget_events (out r)
             = [EvHttpGet url; EvIncr key; EvGet key]
               ++ (if c + 1 >=? max_urls self then []
                   else if decide (max_time_in_sec self = 0) then [] else [EvTime])
          /\ (In (EvLog (InfoMaxUrls (max_urls self) url)) (out r)
              <-> max_urls self <= c + 1)
      end
  end.
Proof.
  intros Hd. cbn zeta. unfold page_of.
  destruct (depth >? max_depth self) eqn:E; [lia|]. clear E.
  destruct (requests_get env (asked w) url) as [resp|] eqn:Hg; cycle 1.
  { rewrite (scrape_failure_run _ _ _ _ _ RequestException) by
      (done || by unfold fetch_failure; rewrite Hg).
    reflexivity. }
  destruct (status_ok resp) eqn:Hs; cycle 1.
  { rewrite (scrape_failure_run _ _ _ _ _ HTTPError) by
      (done || by unfold fetch_failure; rewrite Hg, Hs).
    reflexivity. }
  destruct (file_name_fits url) eqn:Hn; cycle 1.
  { by rewrite (scrape_unwritable_run _ _ _ _ _ _ Hd Hg Hs Hn). }
  cbn [andb]. rewrite (scrape_fetched _ _ _ _ _ _ Hd Hg Hs Hn).
  destruct (visited_count url w) as [c|] eqn:Hc.
  2:{ rewrite count_error by exact Hc. by split. }
  rewrite (count_run _ _ _ _ _ c) by exact Hc.
  destruct (c + 1 >=? max_urls self) eqn:Hm.
  { refine (conj _ (conj eq_refl _)); [cbn; apply lookup_insert_eq|].
    split; [lia|]. intros _. unfold prepend, store_trace, logging, emit.
    cbn [out app In]. auto 15. }
  assert (Hlt : ~ max_urls self <= c + 1) by lia.
  destruct (decide (max_time_in_sec self = 0)) as [Hz|Hz].
  - erewrite bind_run; cycle 1.
    { rewrite time_limit_run.
      destruct (decide (max_time_in_sec self = 0)) as [_|E]; [reflexivity|contradiction]. }
    cbn iota. erewrite bind_run by reflexivity.
    match goal with |- context [for_each ?l ?f ?w0] =>
      destruct (links_summary env self l (depth + 1) w0) as (Hl & Hw & Hk);
      set (q := for_each l f w0) in * end.
    cbn zeta in *.
    destruct (link_events_quiet _ Hl) as (Hb & _ & Hlog).
    refine (conj _ (conj _ _)).
    + unfold prepend. cbn [world].
      rewrite Hk by (intros h; apply visited_key_not_counter).
      cbn. apply lookup_insert_eq.
    + unfold prepend, store_trace.
      cbn [out world res app budget_events List.filter is_budget_event].
      fold (budget_events (out q)). by rewrite Hb.
    + split; [|done]. intros Hin. exfalso. revert Hin.
      unfold prepend, store_trace, upload_line. cbn [out app In]. intros Hin.
      repeat (destruct Hin as [Hin|Hin];
              [by (discriminate Hin || destruct (upload_raises env (S (asked w))))|]).
      by apply (Hlog _ Hin).
  - erewrite bind_run; cycle 1.
    { rewrite time_limit_run.
      destruct (decide (max_time_in_sec self = 0)) as [E|_]; [contradiction|reflexivity]. }
    destruct (deadline_passed env self _) eqn:Hdl.
    { refine (conj _ (conj eq_refl _)); [cbn; apply lookup_insert_eq|].
      split; [|done]. intros Hin. exfalso. revert Hin.
      unfold prepend, store_trace, upload_line, logging, emit. cbn [out app In]. intros Hin.
      repeat (destruct Hin as [Hin|Hin];
              [by (discriminate Hin || destruct (upload_raises env (S (asked w))))|]).
      done. }
    erewrite bind_run by reflexivity.
    match goal with |- context [for_each ?l ?f ?w0] =>
      destruct (links_summary env self l (depth + 1) w0) as (Hl & Hw & Hk);
      set (q := for_each l f w0) in * end.
    cbn zeta in *.
    destruct (link_events_quiet _ Hl) as (Hb & _ & Hlog).
    refine (conj _ (conj _ _)).
    + unfold prepend. cbn [world].
      rewrite Hk by (intros h; apply visited_key_not_counter).
      cbn. apply lookup_insert_eq.
    + unfold prepend, store_trace.
      cbn [out world res app budget_events List.filter is_budget_event].
      fold (budget_events (out q)). by rewrite Hb.
    + split; [|done]. intros Hin. exfalso. revert Hin.
      unfold prepend, store_trace, upload_line. cbn [out app In]. intros Hin.
      repeat (destruct Hin as [Hin|Hin];
              [by (discriminate Hin || destruct (upload_raises env (S (asked w))))|]).
      by apply (Hlog _ Hin).
Qed.

(** C5, amended. The depth check comes first and alone guards the fetch:
    a refused task goes through no other interaction, every other task
    is requested.  When the request fails, or [open] rejects the name of
    the page's file, nothing follows.  Otherwise the counter is
    incremented; when INCR accepts it, the counter, now one more than
    before, is read for the comparison with [max_urls]; and exactly when
    that comparison lets the task through and [max_time_in_sec] is not 0
    the clock is read for the comparison with [max_time_in_sec].  A
    task admitted to link processing has gone through all of them, in
    this order, its counter incremented before the comparison. *)
Theorem scrape_check_order env self url depth w :
  let r := scrape env self url depth w in
  let key := urls_visited_key url in
  (depth > max_depth self -> budget_events (out r) = [])
  /\ budget_events (out r) `prefix_of` [EvHttpGet url; EvIncr key; EvGet key; EvTime]
  /\ (In (EvLog (InfoScraped url depth)) (out r) ->
      budget_events (out r)
        = [EvHttpGet url; EvIncr key; EvGet key]
          ++ (if decide (max_time_in_sec self = 0) then [] else [EvTime])
      /\ exists c, visited_count url w = Some c
                   /\ c + 1 < max_urls self
                   /\ redis (world r) !! key = Some (RInt (c + 1)))
  /\ (depth <= max_depth self ->
      match page_of env self url depth w with
      | None => budget_events (out r) = [EvHttpGet url]
      | Some _ =>
          match visited_count url w with
          | None =>
              budget_events (out r) = [EvHttpGet url; EvIncr key]
              /\ res r = Raise RedisResponseError
          | Some c =>
              redis (world r) !! key = Some (RInt (c + 1))
              /\ budget_events (out r)
                 = [EvHttpGet url; EvIncr key; EvGet key]
                   ++ (if c + 1 >=? max_urls self then []
                       else if decide (max_time_in_sec self = 0) then [] else [EvTime])
              /\ (In (EvLog (InfoMaxUrls (max_urls self) url)) (out r)
                  <-> max_urls self <= c + 1)
          end
      end).
Proof.
  destruct (scrape_admitted_order env self url depth w) as (H1 & H2 & H3).
  refine (conj H1 (conj H2 (conj H3 _))).
  intros Hd. by apply scrape_budget_events.
Qed.

(** ** A failed fetch *)

(** C6, as stated, fails: status 300 is not a 2xx status, yet
    [raise_for_status] lets it through: the page is counted and its link
    is published. *)
Lemma non_2xx_processed :
  let r := scrape (Example.env_of Example.multiple_choices_site false Example.on_time)
                  (Example.scraper_at 0%Q) Example.page_url 0 Example.empty_world in
  (is_2xx <$> requests_get
                (Example.env_of Example.multiple_choices_site false Example.on_time)
                0 Example.page_url) = Some false
  /\ redis (world r) !! urls_visited_key Example.page_url = Some (RInt 1)
  /\ sent (out r) = [Message "http://b.test/x" 1].
Proof. repeat split; vm_compute; reflexivity. Qed.

(** C6, amended. When the request raises or the status is a 4xx or 5xx
    one (what [raise_for_status] rejects), [scrape] logs the error and
    stops: nothing is published, Redis and the topic are unchanged, and
    only the oracle position has moved. *)
Theorem scrape_fetch_failure env self url depth w e :
  depth <= max_depth self ->
  fetch_failure env w url = Some e ->
  scrape env self url depth w
    = mkRun [EvHttpGet url; EvLog (ErrorScraping url e)] (tick w) (Ret tt)
  /\ sent (out (scrape env self url depth w)) = []
  /\ redis (world (scrape env self url depth w)) = redis w
  /\ topic (world (scrape env self url depth w)) = topic w.
Proof.
  intros Hd Hf. rewrite (scrape_failure_run env self url depth w e Hd Hf).
  by repeat split.
Qed.

Lemma scrape_fetch_failure_witness :
  scrape (Example.env_of Example.missing_site false Example.on_time)
         (Example.scraper_at 0%Q) Example.page_url 0 Example.empty_world
    = mkRun [EvHttpGet Example.page_url;
             EvLog (ErrorScraping Example.page_url HTTPError)]
            (tick Example.empty_world) (Ret tt)
  /\ sent (out (scrape (Example.env_of Example.missing_site false Example.on_time)
         (Example.scraper_at 0%Q) Example.page_url 0 Example.empty_world)) = []
  /\ redis (world (scrape (Example.env_of Example.missing_site false Example.on_time)
         (Example.scraper_at 0%Q) Example.page_url 0 Example.empty_world))
     = redis Example.empty_world
  /\ topic (world (scrape (Example.env_of Example.missing_site false Example.on_time)
         (Example.scraper_at 0%Q) Example.page_url 0 Example.empty_world))
     = topic Example.empty_world.
Proof.
  apply (scrape_fetch_failure
           (Example.env_of Example.missing_site false Example.on_time)
           (Example.scraper_at 0%Q) Example.page_url 0 Example.empty_world HTTPError).
  - vm_compute. discriminate.
  - vm_compute. reflexivity.
Defined.

(** ** Publishing a link *)

Lemma publish_run env self href depth w (p b : url_parts) j :
  producer_closed w = false ->
  urlparse env href = Some p ->
  scheme p = EmptyString ->
  urlparse env (kafka_topic self) = Some b ->
  urljoin env (scheme b +:+ "://" +:+ netloc b) href = Some j ->
  publish env self href depth w
  = mkRun [EvSend (Message j depth)] (set_topic (λ t, t ++ [Message j depth]) w) (Ret tt).
Proof.
  intros Hc Hp Hs Hb Hj. unfold publish, or_value_error, producer_send.
  rewrite Hp. run_steps. destruct (decide (scheme p = "")) as [_|E]; [|contradiction].
  rewrite Hb. run_steps. rewrite Hj. run_steps. rewrite Hc. reflexivity.
Qed.

Lemma publish_returns env self href depth w :
  res (publish env self href depth w) = Ret tt ->
  length (sent (out (publish env self href depth w))) = 1%nat.
Proof.
  unfold publish, or_value_error, producer_send.
  destruct (urlparse env href) as [p|]; run_steps; [|done].
  destruct (decide (scheme p = "")); run_steps.
  - destruct (urlparse env (kafka_topic self)) as [b|]; run_steps; [|done].
    destruct (urljoin env _ href) as [j|]; run_steps; [|done].
    destruct (producer_closed w); run_steps; done.
  - destruct (producer_closed w); run_steps; done.
Qed.

Lemma publish_raise env self href depth w e :
  res (publish env self href depth w) = Raise e ->
  publish env self href depth w = mkRun [] w (Raise e).
Proof.
  unfold publish, or_value_error, producer_send.
  destruct (urlparse env href) as [p|]; run_steps; [|by intros [= <-]].
  destruct (decide (scheme p = "")); run_steps.
  - destruct (urlparse env (kafka_topic self)) as [b|]; run_steps; [|by intros [= <-]].
    destruct (urljoin env _ href) as [j|]; run_steps; [|by intros [= <-]].
    destruct (producer_closed w); run_steps; [by intros [= <-]|done].
  - destruct (producer_closed w); run_steps; [by intros [= <-]|done].
Qed.

Lemma absent_frame env self h h' d w :
  h' <> Some h ->
  absent h (world (process_link env self h' d w)) = absent h w.
Proof.
  intros Hne.
  destruct (process_link_summary env self h' d w) as (_ & _ & _ & Hk & _).
  cbn zeta in Hk. unfold absent. rewrite Hk; [done|].
  intros h0 -> E. apply visited_key_inj in E. congruence.
Qed.

Lemma absent_false_kept env self h h' d w :
  absent h w = false ->
  absent h (world (process_link env self h' d w)) = false.
Proof.
  intros Ha. destruct (decide (h' = Some h)) as [->|Hne].
  - destruct (process_link_summary env self (Some h) d w) as (_ & _ & _ & _ & _ & H6).
    destruct (H6 h eq_refl Ha) as (_ & ->). exact Ha.
  - by rewrite absent_frame.
Qed.

Lemma absent_false_after_calls env self h calls w :
  absent h w = false -> absent h (after_calls env self calls w) = false.
Proof.
  revert w. induction calls as [|[h' d] calls IH]; intros w Ha; [done|].
  cbn. apply IH. by apply absent_false_kept.
Qed.

Lemma sends_for_bound env self h calls w :
  (sends_for env self h calls w <= if absent h w then 1 else 0)%nat.
Proof.
  revert w. induction calls as [|[h' d] calls IH]; intros w.
  { cbn. destruct (absent h w); lia. }
  cbn [sends_for]. cbn zeta.
  destruct (process_link_summary env self h' d w) as (_ & Hl & _ & _ & H5 & H6).
  cbn zeta in *.
  set (r := process_link env self h' d w) in *.
  specialize (IH (world r)).
  destruct (decide (h' = Some h)) as [->|Hne].
  - destruct (absent h w) eqn:Ha.
    + destruct (decide (h = EmptyString)) as [->|Hh].
      * subst r. rewrite process_link_empty in *. cbn [out world] in *. cbn.
        destruct (absent "" w); lia.
      * rewrite (H5 h eq_refl Hh) in IH. lia.
    + destruct (H6 h eq_refl Ha) as (Hs & Hw). rewrite Hs, Hw in *.
      rewrite Ha in IH. cbn. lia.
  - subst r. rewrite absent_frame in IH by done. lia.
Qed.

Lemma visited_mark_visited h w : visited h (mark_visited h w) = true.
Proof.
  unfold visited, mark_visited. cbn. rewrite lookup_insert_eq.
  destruct (redis w !! visited_key h) as [[| s |]|];
    apply bool_decide_eq_true_2; set_solver.
Qed.


(** ** Relative links *)

(** C7, as stated, fails: what is published need not be an absolute
    URL.  With the topic name 'new_urls' that [__init__] sets, the base
    is "://", and the link "/about" is published as "/about", a string
    without scheme and without network location. *)
Lemma relative_link_published_relative :
  kafka_topic (Example.scraper_at 0%Q) = "new_urls"
  /\ sent (out (process_link (Example.env_of Example.plain_site false Example.on_time)
                  (Example.scraper_at 0%Q) (Some "/about") 1 Example.empty_world))
     = [Message "/about" 1]
  /\ urlparse (Example.env_of Example.plain_site false Example.on_time) "/about"
     = Some (UrlParts "" "").
Proof. repeat split; vm_compute; reflexivity. Qed.

(** C7, amended. A link that parses without a scheme (and is new, so
    that it gets published at all) is joined with the base made of the
    scheme and the network location of the Kafka topic name parsed as a
    URL, and the result of that join, absolute or not, is what is
    published.  The URL of the page being crawled plays no part:
    [process_link] does not receive it. *)
Theorem process_link_relative env self href depth w (p b : url_parts) j :
  href <> EmptyString ->
  absent href w = true ->
  producer_closed w = false ->
  urlparse env href = Some p ->
  scheme p = EmptyString ->
  urlparse env (kafka_topic self) = Some b ->
  urljoin env (scheme b +:+ "://" +:+ netloc b) href = Some j ->
  process_link env self (Some href) depth w
  = mkRun [EvSismember (visited_key href) href; EvSadd (visited_key href) href;
           EvSend (Message j depth)]
          (set_topic (λ t, t ++ [Message j depth]) (mark_visited href w))
          (Ret tt).
Proof.
  intros Hne Ha Hc Hp Hs Hb Hj.
  rewrite process_link_absent by done.
  erewrite publish_run; eauto.
Qed.

(** With a topic name that reads as a URL, the link is resolved against
    the host of the topic name. *)
Lemma process_link_relative_witness :
  process_link (Example.env_of Example.plain_site false Example.on_time)
               (scraper_with_topic "http://a.test/new_urls") (Some "docs/about") 1
               Example.empty_world
  = mkRun [EvSismember (visited_key "docs/about") "docs/about";
           EvSadd (visited_key "docs/about") "docs/about";
           EvSend (Message "http://a.test/docs/about" 1)]
          (set_topic (λ t, t ++ [Message "http://a.test/docs/about" 1])
             (mark_visited "docs/about" Example.empty_world))
          (Ret tt).
Proof.
  apply (process_link_relative
           (Example.env_of Example.plain_site false Example.on_time)
           (scraper_with_topic "http://a.test/new_urls") "docs/about" 1
           Example.empty_world
           (UrlParts "" "") (UrlParts "http" "a.test") "http://a.test/docs/about").
  - vm_compute. discriminate.
  - vm_compute. reflexivity.
  - reflexivity.
  - vm_compute. reflexivity.
  - reflexivity.
  - vm_compute. reflexivity.
  - vm_compute. reflexivity.
Defined.

(** ** Deduplication *)

(** C4, as stated, fails: the first call that finds the link absent need
    not publish.  For a link that urllib rejects, the first call finds
    it absent, records it and raises; no call ever publishes it. *)
Lemma first_discovery_not_published :
  absent "http://[b.test/x" Example.empty_world = true
  /\ res (process_link (Example.env_of Example.plain_site false Example.on_time)
            (Example.scraper_at 0%Q) (Some "http://[b.test/x") 1 Example.empty_world)
     = Raise ValueError
  /\ sends_for (Example.env_of Example.plain_site false Example.on_time)
       (Example.scraper_at 0%Q) "http://[b.test/x"
       [(Some "http://[b.test/x", 1); (Some "http://[b.test/x", 2);
        (Some "http://[b.test/x", 3)]
       Example.empty_world = 0%nat.
Proof. repeat split; vm_compute; reflexivity. Qed.

(** C4, amended. However often and with whatever depths a link is
    submitted to [process_link], among calls for any other links, the
    calls for that link publish at most one record.  Once one call for
    the link has been made, every later call for it publishes nothing
    and leaves the world, hence the visited sets, as it found them.  The
    call that finds the link absent records it before it resolves and
    publishes it: when that call returns, it has published exactly one
    record; when it raises, it has published none, and the link is
    recorded all the same. *)
Theorem process_link_at_most_once env self href calls depth depth' w :
  (sends_for env self href calls w <= 1)%nat
  /\ (let w1 := world (process_link env self (Some href) depth w) in
      let w2 := after_calls env self calls w1 in
      let r := process_link env self (Some href) depth' w2 in
      sent (out r) = [] /\ world r = w2)
  /\ (href <> EmptyString ->
      absent href w = true ->
      res (process_link env self (Some href) depth w) = Ret tt ->
      length (sent (out (process_link env self (Some href) depth w))) = 1%nat
      /\ visited href (world (process_link env self (Some href) depth w)) = true)
  /\ (href <> EmptyString ->
      absent href w = true ->
      forall e, res (process_link env self (Some href) depth w) = Raise e ->
      sent (out (process_link env self (Some href) depth w)) = []
      /\ visited href (world (process_link env self (Some href) depth w)) = true).
Proof.
  refine (conj _ (conj _ (conj _ _))).
  - pose proof (sends_for_bound env self href calls w) as H.
    destruct (absent href w); lia.
  - cbn zeta. destruct (decide (href = EmptyString)) as [->|Hne].
    { by rewrite !process_link_empty. }
    destruct (process_link_summary env self (Some href) depth w) as (_ & _ & _ & _ & H5 & _).
    cbn zeta in H5. specialize (H5 href eq_refl Hne).
    set (w1 := world (process_link env self (Some href) depth w)) in *.
    pose proof (absent_false_after_calls env self href calls w1 H5) as Ha.
    destruct (process_link_summary env self (Some href) depth'
                (after_calls env self calls w1)) as (_ & _ & _ & _ & _ & H6).
    exact (H6 href eq_refl Ha).
  - intros Hne Ha. rewrite process_link_absent by done.
    unfold prepend. cbn [out world res]. intros Hr.
    split.
    + exact (publish_returns _ _ _ _ _ Hr).
    + destruct (publish_spec env self href depth (mark_visited href w)) as (_ & _ & ->).
      apply visited_mark_visited.
  - intros Hne Ha e. rewrite process_link_absent by done.
    unfold prepend at 1. cbn [res]. intros Hr.
    rewrite (publish_raise _ _ _ _ _ _ Hr). unfold prepend. cbn [out world res app].
    split; [reflexivity|apply visited_mark_visited].
Qed.

Example three_submissions :
  sends_for (Example.env_of Example.plain_site false Example.on_time)
            (Example.scraper_at 0%Q) "http://b.test/x"
            [(Some "http://b.test/x", 1); (Some "/about", 1); (Some "http://b.test/x", 2);
             (Some "http://b.test/x", 7)]
            Example.empty_world = 1%nat.
Proof. vm_compute. reflexivity. Qed.

(** ** Two discoveries at the same time *)











Lemma sent_app tr tr' : sent (tr ++ tr') = sent tr ++ sent tr'.
Proof. apply omap_app. Qed.






(** ** The drain *)

Lemma drain_run records position w :
  drain records position w
  = mkRun (map EvCommit (seq (S position) (length records)))
          (match records with
           | [] => w
           | _ :: _ => set_committed (Some (position + length records)%nat) w
           end)
          (Ret tt).
Proof.
  revert position w. induction records as [|m records IH]; intros position w; [done|].
  cbn [drain]. erewrite bind_run by reflexivity. rewrite IH.
  unfold prepend. cbn [out world res length seq map app].
  replace (position + S (length records))%nat with (S position + length records)%nat by lia.
  destruct records as [|m' records]; [|reflexivity].
  cbn [length]. by rewrite Nat.add_0_r.
Qed.

Lemma empty_kafka_queue_run env w :
  empty_kafka_queue env w
  = mkRun (map EvCommit (seq (S (drain_position w)) (length (pending w)))
           ++ (if iteration_ends env then [EvConsumerClose] else []))
          (drained w)
          (if iteration_ends env then Ret tt else Block).
Proof.
  unfold empty_kafka_queue. erewrite bind_run by reflexivity.
  unfold prepend. cbn [app out world res].
  fold (drain_position w). fold (pending w).
  erewrite bind_run by apply drain_run.
  fold (drained w). destruct (iteration_ends env); reflexivity.
Qed.

Lemma pending_drained w : topic (drained w) !! default (length (topic (drained w)))
                                                 (committed (drained w)) = None.
Proof.
  unfold drained. destruct (pending w) as [|m l] eqn:Hp.
  - unfold pending, drain_position in Hp.
    destruct (committed w) as [c|]; cbn in *.
    + apply lookup_ge_None. apply (f_equal length) in Hp. rewrite length_drop in Hp.
      cbn in Hp. lia.
    + apply lookup_ge_None. lia.
  - cbn. apply lookup_ge_None.
    unfold pending in Hp. apply (f_equal length) in Hp. rewrite length_drop in Hp.
    cbn in *. lia.
Qed.

Lemma consume_nothing env self n position w :
  topic w !! position = None ->
  out (consume env self n position w) = [] /\ world (consume env self n position w) = w.
Proof.
  intros H. destruct n; [done|]. cbn [consume].
  erewrite bind_run by reflexivity. rewrite H. done.
Qed.


(** C8. [empty_kafka_queue] commits, for every record pending for the
    group, the offset just past that record, and does nothing else: no
    record is handed to [scrape] (no HTTP request, no interaction at all
    besides commits and the consumer's close), Redis and the topic are
    unchanged.  A worker loop of the same group started afterwards finds
    no record at its position and handles none.  [cleanup] is this drain
    run after the producer was closed. *)
Theorem empty_kafka_queue_discards env self w n :
  let r := empty_kafka_queue env w in
  commits (out r) = seq (S (drain_position w)) (length (pending w))
  /\ (forall i m, (drain_position w <= i)%nat -> topic w !! i = Some m ->
        In (EvCommit (S i)) (out r))
  /\ Forall (λ e, is_drain_event e = true) (out r)
  /\ fetched (out r) = []
  /\ world r = drained w
  /\ redis (world r) = redis w /\ topic (world r) = topic w
  /\ out (run_kafka_consumer env self n (world r)) = []
  /\ world (run_kafka_consumer env self n (world r)) = world r
  /\ out (cleanup env w)
     = EvProducerClose :: out (empty_kafka_queue env (set_producer_closed true w)).
Proof.
  cbn zeta. rewrite empty_kafka_queue_run. cbn [out world res].
  set (tail := if iteration_ends env then [EvConsumerClose] else []).
  assert (Ht : commits tail = [] /\ fetched tail = []
               /\ Forall (λ e, is_drain_event e = true) tail).
  { subst tail. destruct (iteration_ends env); repeat constructor. }
  destruct Ht as (Ht1 & Ht2 & Ht3).
  assert (Hc : forall l, commits (map EvCommit l) = l
                         /\ fetched (map EvCommit l) = []
                         /\ Forall (λ e, is_drain_event e = true) (map EvCommit l)).
  { induction l as [|x l (IH1 & IH2 & IH3)]; [by repeat constructor|].
    cbn. refine (conj _ (conj IH2 _)); [f_equal; exact IH1 | by constructor]. }
  destruct (Hc (seq (S (drain_position w)) (length (pending w)))) as (Hc1 & Hc2 & Hc3).
  refine (conj _ (conj _ (conj _ (conj _ (conj eq_refl (conj _ (conj _ (conj _ (conj _ _))))))))).
  - unfold commits in *. rewrite omap_app, Hc1, Ht1. apply app_nil_r.
  - intros i m Hi Hm. apply in_or_app. left. apply in_map, in_seq.
    apply lookup_lt_Some in Hm. unfold pending. rewrite length_drop. lia.
  - by apply Forall_app_2.
  - unfold fetched in *. by rewrite omap_app, Hc2, Ht2.
  - unfold drained. by destruct (pending w).
  - unfold drained. by destruct (pending w).
  - unfold run_kafka_consumer. erewrite bind_run by reflexivity.
    unfold prepend. cbn [out world app].
    apply consume_nothing, pending_drained.
  - unfold run_kafka_consumer. erewrite bind_run by reflexivity.
    unfold prepend. cbn [out world app].
    apply consume_nothing, pending_drained.
  - unfold cleanup, try_except.
    assert (E : (producer_close ;; empty_kafka_queue env) w
                = prepend [EvProducerClose]
                    (empty_kafka_queue env (set_producer_closed true w))).
    { unfold producer_close. erewrite bind_run; [reflexivity|].
      erewrite bind_run by reflexivity. erewrite bind_run by reflexivity.
      reflexivity. }
    rewrite E. rewrite empty_kafka_queue_run. unfold prepend. cbn [out world res].
    destruct (iteration_ends env); reflexivity.
Qed.

Example drain_two_of_three :
  let w := set_committed (Some 1%nat)
             (set_topic (λ _, [Message "http://a.test/" 0; Message "http://b.test/x" 1;
                               Message "/about" 1]) Example.empty_world) in
  commits (out (empty_kafka_queue
                  (Example.env_of Example.plain_site false Example.on_time) w))
    = [2%nat; 3%nat]
  /\ committed (world (empty_kafka_queue
                         (Example.env_of Example.plain_site false Example.on_time) w))
     = Some 3%nat.
Proof. split; vm_compute; reflexivity. Qed.

(** ** A failed upload *)

Lemma blind_bind {A B} (m : M A) (k : A -> M B) :
  bucket_blind m -> (forall a, bucket_blind (k a)) -> bucket_blind (m ≫= k).
Proof.
  intros Hm Hk w b. unfold mbind, M_bind, bind. cbv zeta. rewrite !Hm.
  cbn [out world res].
  destruct (res (m w)); cbn [out world res]; [|done|done].
  rewrite !Hk. reflexivity.
Qed.

Lemma blind_ret {A} (a : A) : bucket_blind (mret a).
Proof. by intros w b. Qed.
Lemma blind_raise {A} e : bucket_blind (@raise A e).
Proof. by intros w b. Qed.
Lemma blind_emit e : bucket_blind (emit e).
Proof. by intros w b. Qed.

Lemma blind_or_value_error {A} (o : option A) : bucket_blind (or_value_error o).
Proof. destruct o; by intros w b. Qed.

Ltac blind_prim :=
  let w := fresh "w" in let b := fresh "b" in
  intros w b; run_steps; cbn [with_bucket redis files bucket topic committed
                              producer_closed asked].

Lemma blind_redis_incr key : bucket_blind (redis_incr key).
Proof.
  unfold redis_incr. blind_prim.
  destruct (redis w !! key) as [[n| |]|]; try done.
  destruct ((int64_min <=? n) && (n <? int64_max)); done.
Qed.

Lemma blind_redis_get_int key : bucket_blind (redis_get_int key).
Proof.
  unfold redis_get_int. blind_prim. by destruct (redis w !! key) as [[n| |]|].
Qed.

Lemma blind_sismember key x : bucket_blind (redis_sismember key x).
Proof.
  unfold redis_sismember. blind_prim. by destruct (redis w !! key) as [[n| |]|].
Qed.

Lemma blind_sadd key x : bucket_blind (redis_sadd key x).
Proof.
  unfold redis_sadd. blind_prim. by destruct (redis w !! key) as [[n| |]|].
Qed.

Lemma blind_send m : bucket_blind (producer_send m).
Proof. unfold producer_send. blind_prim. by destruct (producer_closed w). Qed.

Lemma blind_clock env : bucket_blind (clock env).
Proof. unfold clock. by blind_prim. Qed.

Lemma blind_time_limit env self : bucket_blind (time_limit_reached env self).
Proof.
  unfold time_limit_reached. destruct (decide _); [apply blind_ret|].
  apply blind_bind; [apply blind_clock|]. intros. apply blind_ret.
Qed.

Lemma blind_process_link env self href d : bucket_blind (process_link env self href d).
Proof.
  unfold process_link. destruct href as [[|a h]|]; try apply blind_ret.
  apply blind_bind; [apply blind_sismember|]. intros [|]; [apply blind_ret|].
  apply blind_bind; [apply blind_sadd|]. intros _.
  apply blind_bind; [apply blind_or_value_error|]. intros p.
  apply blind_bind; [|intros; apply blind_send].
  destruct (decide _); [|apply blind_ret].
  apply blind_bind; [apply blind_or_value_error|]. intros. apply blind_or_value_error.
Qed.

Lemma blind_for_each {A} (xs : list A) (body : A -> M unit) :
  (forall x, bucket_blind (body x)) -> bucket_blind (for_each xs body).
Proof.
  intros H. induction xs as [|x xs IH]; [apply blind_ret|].
  cbn [for_each]. apply blind_bind; auto.
Qed.

Lemma blind_budget_and_links env self url depth resp :
  bucket_blind (budget_and_links env self url depth resp).
Proof.
  unfold budget_and_links.
  apply blind_bind; [apply blind_redis_incr|]. intros _.
  apply blind_bind; [apply blind_redis_get_int|]. intros c.
  destruct (c >=? max_urls self); [apply blind_emit|].
  apply blind_bind; [apply blind_time_limit|]. intros [|]; [apply blind_emit|].
  apply blind_bind; [apply blind_emit|]. intros _.
  apply blind_for_each. intros. apply blind_process_link.
Qed.

Lemma budget_and_links_same_upload env f self url depth resp :
  budget_and_links (with_upload_raises f env) self url depth resp
  = budget_and_links env self url depth resp.
Proof. reflexivity. Qed.

Lemma redis_incr_out key w : out (redis_incr key w) = [EvIncr key].
Proof.
  unfold redis_incr. run_steps.
  destruct (redis w !! key) as [[n| |]|]; try done.
  destruct ((int64_min <=? n) && (n <? int64_max)); done.
Qed.

Lemma budget_and_links_starts env self url depth resp w :
  exists rest, out (budget_and_links env self url depth resp w)
               = EvIncr (urls_visited_key url) :: rest.
Proof.
  unfold budget_and_links, mbind at 1, M_bind, bind. cbv zeta.
  destruct (res (redis_incr (urls_visited_key url) w)); cbn [out];
    rewrite redis_incr_out; by eexists.
Qed.

(** The count and time checks and the links leave the files alone and
    leave the counter at its incremented value. *)
Lemma budget_and_links_frame env self url depth resp w :
  let r := budget_and_links env self url depth resp w in
  files (world r) = files w
  /\ forall c, visited_count url w = Some c ->
       redis (world r) !! urls_visited_key url = Some (RInt (c + 1)).
Proof.
  cbn zeta. destruct (visited_count url w) as [c|] eqn:Hc.
  2:{ rewrite count_error by exact Hc. by split. }
  rewrite (count_run _ _ _ _ _ c) by exact Hc. unfold prepend. cbn [world].
  assert (Hins : forall c0, Some c = Some c0 ->
            <[urls_visited_key url := RInt (c + 1)]> (redis w) !! urls_visited_key url
            = Some (RInt (c0 + 1))).
  { intros c0 [= <-]. apply lookup_insert_eq. }
  destruct (c + 1 >=? max_urls self); [by split|].
  destruct (decide (max_time_in_sec self = 0)) as [Hz|Hz].
  - erewrite bind_run; cycle 1.
    { rewrite time_limit_run.
      destruct (decide (max_time_in_sec self = 0)) as [_|E]; [reflexivity|contradiction]. }
    cbn iota. erewrite bind_run by reflexivity. unfold prepend. cbn [world].
    match goal with |- context [for_each ?l ?f ?w0] =>
      destruct (links_summary env self l (depth + 1) w0) as (_ & Hw & Hk) end.
    cbn zeta in *. split; [by rewrite Hw|]. intros c0 H0.
    rewrite Hk by (intros h; apply visited_key_not_counter). by apply Hins.
  - erewrite bind_run; cycle 1.
    { rewrite time_limit_run.
      destruct (decide (max_time_in_sec self = 0)) as [E|_]; [contradiction|reflexivity]. }
    destruct (deadline_passed env self _); [by split|].
    erewrite bind_run by reflexivity. unfold prepend. cbn [world].
    match goal with |- context [for_each ?l ?f ?w0] =>
      destruct (links_summary env self l (depth + 1) w0) as (_ & Hw & Hk) end.
    cbn zeta in *. split; [by rewrite Hw|]. intros c0 H0.
    rewrite Hk by (intros h; apply visited_key_not_counter). by apply Hins.
Qed.


(** C10. When the page was fetched and written to its file (the upload
    is reached only then: [open] must have accepted the file name) and
    the S3 upload raises, [scrape]
    goes on: the error is logged where the success line would have been,
    the temporary file is removed, the counter is incremented, and from
    there on the run is the one of a successful upload: same trace, same
    result, same world, the S3 bucket apart, which keeps its content. *)
Theorem upload_failure_tolerated env self url depth w resp :
  depth <= max_depth self ->
  requests_get env (asked w) url = Some resp ->
  status_ok resp = true ->
  file_name_fits url = true ->
  upload_raises env (S (asked w)) = true ->
  let bad := scrape env self url depth w in
  let good := scrape (with_upload_raises (λ _, false) env) self url depth w in
  let path := file_path_of url in
  let key := urls_visited_key url in
  (exists rest,
     out bad = [EvHttpGet url; EvFileWrite path; EvLog (PrintSaveToS3 url);
                EvUpload path (bucket_name self) (file_name_of url);
                EvLog (ErrorUploading S3UploadFailed);
                EvFileRemove path; EvLog (PrintFileDeleted path); EvIncr key] ++ rest
     /\ out good = [EvHttpGet url; EvFileWrite path; EvLog (PrintSaveToS3 url);
                    EvUpload path (bucket_name self) (file_name_of url);
                    EvLog (InfoUploaded ("https://" +:+ bucket_name self +:+
                                         ".s3.amazonaws.com/" +:+ file_name_of url));
                    EvFileRemove path; EvLog (PrintFileDeleted path); EvIncr key] ++ rest)
  /\ res bad = res good
  /\ world bad = with_bucket (bucket w) (world good)
  /\ files (world bad) !! path = None
  /\ (forall c, visited_count url w = Some c ->
        redis (world bad) !! key = Some (RInt (c + 1))).
Proof.
  intros Hd Hg Hs Hn Hu bad good path key. subst bad good path key.
  rewrite (scrape_fetched env _ _ _ _ _ Hd Hg Hs Hn).
  rewrite (scrape_fetched (with_upload_raises (λ _, false) env) _ _ _ _ resp Hd Hg Hs Hn).
  rewrite budget_and_links_same_upload.
  set (s' := stored (with_upload_raises (λ _, false) env) self url resp w).
  assert (Es : stored env self url resp w = with_bucket (bucket w) s').
  { unfold stored, s', with_bucket. rewrite Hu. reflexivity. }
  rewrite Es. rewrite (blind_budget_and_links env self url depth resp s' (bucket w)).
  destruct (budget_and_links_starts env self url depth resp s') as (rest & Hrest).
  destruct (budget_and_links_frame env self url depth resp s') as (Hfiles & Hcount).
  cbn zeta in *.
  unfold prepend, store_trace, upload_line. cbn [out world res with_upload_raises upload_raises].
  rewrite Hu, Hrest.
  refine (conj _ (conj eq_refl (conj eq_refl (conj _ _)))).
  - exists rest. by split.
  - cbn [with_bucket files]. rewrite Hfiles. apply lookup_delete_eq.
  - intros c Hc. cbn [with_bucket redis]. by apply Hcount.
Qed.

Lemma upload_failure_tolerated_witness :
  let bad := scrape (Example.env_of Example.linked_site true Example.on_time) (Example.scraper_at 0%Q) Example.page_url 0 Example.empty_world in
  let good := scrape (with_upload_raises (λ _, false) (Example.env_of Example.linked_site true Example.on_time)) (Example.scraper_at 0%Q) Example.page_url 0 Example.empty_world in
  let path := file_path_of Example.page_url in
  let key := urls_visited_key Example.page_url in
  (exists rest,
     out bad = [EvHttpGet Example.page_url; EvFileWrite path; EvLog (PrintSaveToS3 Example.page_url);
                EvUpload path (bucket_name (Example.scraper_at 0%Q)) (file_name_of Example.page_url);
                EvLog (ErrorUploading S3UploadFailed);
                EvFileRemove path; EvLog (PrintFileDeleted path); EvIncr key] ++ rest
     /\ out good = [EvHttpGet Example.page_url; EvFileWrite path; EvLog (PrintSaveToS3 Example.page_url);
                    EvUpload path (bucket_name (Example.scraper_at 0%Q)) (file_name_of Example.page_url);
                    EvLog (InfoUploaded ("https://" +:+ bucket_name (Example.scraper_at 0%Q) +:+
                                         ".s3.amazonaws.com/" +:+ file_name_of Example.page_url));
                    EvFileRemove path; EvLog (PrintFileDeleted path); EvIncr key] ++ rest)
  /\ res bad = res good
  /\ world bad = with_bucket (bucket Example.empty_world) (world good)
  /\ files (world bad) !! path = None
  /\ (forall c, visited_count Example.page_url Example.empty_world = Some c ->
        redis (world bad) !! key = Some (RInt (c + 1))).
Proof.
  apply (upload_failure_tolerated (Example.env_of Example.linked_site true Example.on_time) (Example.scraper_at 0%Q) Example.page_url 0 Example.empty_world
           (Response 200 Example.page_url Example.page_url)).
  - vm_compute. discriminate.
  - vm_compute. reflexivity.
  - reflexivity.
  - reflexivity.
  - reflexivity.
Defined.


(** * The rest of scraper.py

    This part covers the functions not treated above ([create_file],
    [delete_file], the read handlers, [start_scraping], [cleanup], the
    handler of [POST /scrape/], the consumer loop), and
    what [scrape] and [process_link] keep or never do.  As everywhere in
    the model, a collaborator fails only in the ways its operation
    shows: Redis answers every command and rejects only a value of the
    wrong type or range, an open producer accepts every record, the
    consumer can be built and closed, creating the local file fails
    only for a file name that is too long, and [os.remove] fails only
    for a missing file. *)

(** ** What one call does to the world *)

Lemma fetched_app tr tr' : fetched (tr ++ tr') = fetched tr ++ fetched tr'.
Proof. unfold fetched. apply omap_app. Qed.

Lemma for_each_cons_run {A} (x : A) xs (body : A -> M unit) w :
  for_each (x :: xs) body w
  = match res (body x w) with
    | Ret _ => prepend (out (body x w)) (for_each xs body (world (body x w)))
    | Raise e => mkRun (out (body x w)) (world (body x w)) (Raise e)
    | Block => mkRun (out (body x w)) (world (body x w)) Block
    end.
Proof. reflexivity. Qed.

Lemma urls_visited_key_inj u u' : urls_visited_key u = urls_visited_key u' -> u = u'.
Proof. unfold urls_visited_key. intros H. by simplify_eq. Qed.

Lemma ends_well_cases {A} (r : result A) :
  ends_well r = true ->
  (exists a, r = Ret a) \/ r = Raise RedisResponseError \/ r = Raise ValueError
  \/ r = Raise ProducerClosedError.
Proof. destruct r as [a|[]|]; cbn; try done; eauto. Qed.

Lemma publish_depth env self href depth w :
  let r := publish env self href depth w in
  Forall (λ m, msg_depth m = depth) (sent (out r)) /\ ends_well (res r) = true
  /\ (producer_closed w = false -> res r <> Raise ProducerClosedError).
Proof.
  unfold publish, or_value_error, producer_send.
  destruct (urlparse env href) as [p|]; run_steps; [|by repeat split].
  destruct (decide (scheme p = "")); run_steps.
  - destruct (urlparse env (kafka_topic self)) as [b|]; run_steps; [|by repeat split].
    destruct (urljoin env _ href) as [j|]; run_steps; [|by repeat split].
    destruct (producer_closed w); run_steps; [by repeat split|].
    split; [|done]. by repeat constructor.
  - destruct (producer_closed w); run_steps; [by repeat split|].
    split; [|done]. by repeat constructor.
Qed.

Lemma publish_absolute_run env self href depth w (p : url_parts) :
  producer_closed w = false ->
  urlparse env href = Some p ->
  scheme p <> EmptyString ->
  publish env self href depth w
  = mkRun [EvSend (Message href depth)]
          (set_topic (λ t, t ++ [Message href depth]) w) (Ret tt).
Proof.
  intros Hc Hp Hs. unfold publish, or_value_error, producer_send.
  rewrite Hp. run_steps. destruct (decide (scheme p = "")) as [E|_]; [contradiction|].
  run_steps. rewrite Hc. reflexivity.
Qed.

(** The outcomes of one call of [process_link]. *)
Lemma process_link_cases env self href depth w :
  let r := process_link env self href depth w in
  (r = mkRun [] w (Ret tt) /\ (href = None \/ href = Some EmptyString))
  \/ (exists h, href = Some h /\ h <> EmptyString /\ absent h w = false
        /\ r = mkRun [EvSismember (visited_key h) h] w
                 (if visited h w then Ret tt else Raise RedisResponseError))
  \/ (exists h, href = Some h /\ h <> EmptyString /\ absent h w = true
        /\ r = prepend [EvSismember (visited_key h) h; EvSadd (visited_key h) h]
                 (publish env self h depth (mark_visited h w))).
Proof.
  destruct href as [h|]; [destruct (decide (h = EmptyString)) as [->|Hne]|].
  - left. split; [reflexivity|by right].
  - destruct (absent h w) eqn:Ha.
    + right. right. exists h. cbn zeta. by rewrite process_link_absent.
    + right. left. exists h. cbn zeta. destruct (visited h w) eqn:Hv.
      * by rewrite process_link_visited.
      * by rewrite process_link_wrong_type.
  - left. split; [reflexivity|by left].
Qed.

Lemma one_link_mark_visited h w :
  one_link_per_key w -> one_link_per_key (mark_visited h w).
Proof.
  intros Hw h' s. unfold mark_visited. cbn [set_redis redis].
  destruct (decide (visited_key h' = visited_key h)) as [E|E].
  - apply visited_key_inj in E as ->. rewrite lookup_insert_eq.
    destruct (redis w !! visited_key h) as [[| s' |]|] eqn:El; intros [= <-]; try done.
    apply union_least; [done|]. by apply Hw.
  - rewrite lookup_insert_ne by done. apply Hw.
Qed.

Lemma one_link_set_topic f w : one_link_per_key w -> one_link_per_key (set_topic f w).
Proof. intros H. exact H. Qed.

Lemma one_link_counter url v w :
  one_link_per_key w -> one_link_per_key (set_redis (insert (urls_visited_key url) v) w).
Proof.
  intros Hw h s. cbn [set_redis redis].
  rewrite lookup_insert_ne by apply visited_key_not_counter. apply Hw.
Qed.

Lemma absent_mark_other h h' w : h <> h' -> absent h' (mark_visited h w) = absent h' w.
Proof.
  intros Hne. unfold absent, mark_visited. cbn [set_redis redis].
  rewrite lookup_insert_ne; [done|]. intros E. by apply visited_key_inj in E.
Qed.

Lemma process_link_more env self href depth w :
  let r := process_link env self href depth w in
  Forall (λ m, msg_depth m = depth) (sent (out r))
  /\ ends_well (res r) = true
  /\ (one_link_per_key w -> one_link_per_key (world r))
  /\ (producer_closed w = false -> res r <> Raise ProducerClosedError)
  /\ (forall h, absent h w = false -> absent h (world r) = false).
Proof.
  assert (Hab : forall h, absent h w = false ->
                  absent h (world (process_link env self href depth w)) = false).
  { intros h. apply absent_false_kept. }
  revert Hab.
  destruct (process_link_cases env self href depth w)
    as [[-> _]|[(h & -> & Hne & Ha & ->)|(h & -> & Hne & Ha & ->)]]; cbn zeta; intros Hab.
  - by repeat split.
  - cbn [out world res]. repeat split; [constructor| |done| |done].
    all: by destruct (visited h w).
  - destruct (publish_depth env self h depth (mark_visited h w)) as (Hd & Hr & Hpc).
    destruct (publish_spec env self h depth (mark_visited h w)) as (_ & _ & Hw).
    cbn zeta in *. unfold prepend. cbn [out world res].
    change (sent ([EvSismember (visited_key h) h; EvSadd (visited_key h) h] ++ ?x))
      with (sent x).
    repeat split; [done|done| |done|exact Hab]. intros Ho. rewrite Hw.
    by apply one_link_set_topic, one_link_mark_visited.
Qed.

Lemma links_more env self links depth w :
  let r := for_each links (λ href, process_link env self href depth) w in
  Forall (λ m, msg_depth m = depth) (sent (out r))
  /\ ends_well (res r) = true
  /\ (one_link_per_key w -> one_link_per_key (world r))
  /\ (length (sent (out r)) <= length links)%nat
  /\ (producer_closed w = false -> res r <> Raise ProducerClosedError)
  /\ (forall h, absent h w = false -> absent h (world r) = false).
Proof.
  revert w. induction links as [|href links IH]; intros w.
  - cbn. repeat split; try done; try constructor; lia.
  - cbn [for_each]. cbn zeta.
    destruct (process_link_more env self href depth w) as (Hd & He & Ho & Hpc & Hab).
    destruct (process_link_summary env self href depth w) as (_ & Hl & Hpw & _).
    cbn zeta in *. unfold mbind, M_bind, bind.
    set (p := process_link env self href depth w) in *.
    destruct (res p) as [[]| |] eqn:Hr; cbn [out world res length].
    + destruct (IH (world p)) as (Hd' & He' & Ho' & Hl' & Hpc' & Hab'). cbn zeta in *.
      set (q := for_each links _ (world p)) in *.
      rewrite sent_app, length_app.
      repeat split; [by apply Forall_app_2|done|auto|lia| |auto].
      intros Hc. apply Hpc'. rewrite Hpw. exact Hc.
    + repeat split; [done|done|auto|lia|done|auto].
    + done.
Qed.

Lemma time_limit_shape env self w :
  exists o w2 late, time_limit_reached env self w = mkRun o w2 (Ret late)
    /\ (o = [] /\ w2 = w \/ o = [EvTime] /\ w2 = tick w).
Proof.
  rewrite time_limit_run. destruct (decide (max_time_in_sec self = 0)).
  - exists [], w, false. split; [reflexivity|by left].
  - exists [EvTime], (tick w), (deadline_passed env self (asked w)).
    split; [reflexivity|by right].
Qed.

(** What the statements of [scrape] after [delete_file] do, whatever
    the world. *)
Lemma budget_and_links_summary env self url depth resp w :
  let r := budget_and_links env self url depth resp w in
  fetched (out r) = []
  /\ files (world r) = files w /\ bucket (world r) = bucket w
  /\ committed (world r) = committed w /\ producer_closed (world r) = producer_closed w
  /\ topic (world r) = topic w ++ sent (out r)
  /\ Forall (λ m, msg_depth m = depth + 1) (sent (out r))
  /\ ends_well (res r) = true
  /\ (forall k, k <> urls_visited_key url -> (forall h, k <> visited_key h) ->
        redis (world r) !! k = redis w !! k)
  /\ (one_link_per_key w -> one_link_per_key (world r))
  /\ (length (sent (out r)) <= length (find_all_a env (content resp)))%nat
  /\ (producer_closed w = false -> res r <> Raise ProducerClosedError)
  /\ (forall h, absent h w = false -> absent h (world r) = false).
Proof.
  cbn zeta. destruct (visited_count url w) as [c|] eqn:Hc.
  2:{ rewrite count_error by done. cbn [out world res].
      repeat split; rewrite ?app_nil_r; try done. cbn. lia. }
  rewrite (count_run _ _ _ _ _ c) by done.
  set (w1 := set_redis (insert (urls_visited_key url) (RInt (c + 1))) w).
  assert (H1 : forall k, k <> urls_visited_key url -> redis w1 !! k = redis w !! k).
  { intros k Hk. unfold w1. cbn [set_redis redis]. by rewrite lookup_insert_ne. }
  assert (O1 : one_link_per_key w -> one_link_per_key w1) by apply one_link_counter.
  assert (A1 : forall h, absent h w1 = absent h w).
  { intros h. unfold absent. rewrite H1; [done|]. apply not_eq_sym, visited_key_not_counter. }
  destruct (c + 1 >=? max_urls self).
  { unfold prepend, logging, emit. cbn [out world res app].
    repeat split; rewrite ?app_nil_r; try done; [auto | cbn; lia | ].
    intros h Hh. by rewrite A1. }
  destruct (time_limit_shape env self w1) as (o & w2 & late & Htl & Ho).
  rewrite (bind_run _ _ _ _ _ _ Htl).
  assert (H2 : files w2 = files w /\ bucket w2 = bucket w /\ committed w2 = committed w
               /\ producer_closed w2 = producer_closed w /\ topic w2 = topic w
               /\ redis w2 = redis w1 /\ fetched o = [] /\ sent o = []).
  { destruct Ho as [[-> ->]|[-> ->]]; by repeat split. }
  destruct H2 as (Hf & Hb & Hcm & Hp & Ht & Hr & Hfo & Hso).
  assert (O2 : one_link_per_key w -> one_link_per_key w2).
  { intros H h s. rewrite Hr. by apply O1. }
  assert (A2 : forall h, absent h w2 = absent h w).
  { intros h. rewrite <- A1. unfold absent. by rewrite Hr. }
  set (pre := [EvIncr (urls_visited_key url); EvGet (urls_visited_key url)]).
  assert (Hfp : fetched pre = []) by reflexivity.
  assert (Hsp : sent pre = []) by reflexivity.
  destruct late.
  { unfold prepend, logging, emit. cbn [out world res].
    rewrite !fetched_app, !sent_app, Hfo, Hso, Hfp, Hsp. cbn [app fetched sent omap].
    repeat split; rewrite ?app_nil_r; try done; [| cbn; lia |].
    - intros k Hk _. rewrite Hr. by apply H1.
    - intros h Hh. by rewrite A2. }
  erewrite bind_run by reflexivity.
  destruct (links_summary env self (find_all_a env (content resp)) (depth + 1) w2)
    as (Hev & Hw & Hk).
  destruct (links_more env self (find_all_a env (content resp)) (depth + 1) w2)
    as (Hd & He & Hone & Hlen & Hpc & Hab).
  destruct (link_events_quiet _ Hev) as (_ & Hfq & _).
  cbn zeta in *.
  set (q := for_each (find_all_a env (content resp)) _ w2) in *.
  unfold prepend, logging, emit. cbn [out world res].
  rewrite !fetched_app, !sent_app, Hfo, Hso, Hfp, Hsp, Hfq.
  change (sent [EvLog ?l]) with (@nil message).
  cbn [app].
  assert (Hw' : files (world q) = files w2 /\ bucket (world q) = bucket w2
                /\ committed (world q) = committed w2
                /\ producer_closed (world q) = producer_closed w2
                /\ topic (world q) = topic w2 ++ sent (out q)).
  { rewrite Hw. by repeat split. }
  destruct Hw' as (Hf' & Hb' & Hc' & Hp' & Ht').
  repeat split; try congruence; auto.
  - intros k Hk1 Hk2. rewrite Hk by done. rewrite Hr. by apply H1.
  - intros Hclosed. apply Hpc. congruence.
  - intros h Hh. apply Hab. by rewrite A2.
Qed.

Lemma scrape_summary env self url depth w :
  let r := scrape env self url depth w in
  let page := page_of env self url depth w in
  fetched (out r) = (if depth >? max_depth self then [] else [url])
  /\ files (world r) = match page with
                       | Some _ => delete (file_path_of url) (files w)
                       | None => files w
                       end
  /\ bucket (world r) = bucket_after env self url depth w
  /\ committed (world r) = committed w /\ producer_closed (world r) = producer_closed w
  /\ topic (world r) = topic w ++ sent (out r)
  /\ Forall (λ m, msg_depth m = depth + 1) (sent (out r))
  /\ (ends_well (res r) = true \/ res r = Raise OSError /\ file_name_fits url = false)
  /\ (forall k, k <> urls_visited_key url -> (forall h, k <> visited_key h) ->
        redis (world r) !! k = redis w !! k)
  /\ (one_link_per_key w -> one_link_per_key (world r))
  /\ (length (sent (out r))
      <= match page with Some p => length (find_all_a env (content p)) | None => 0 end)%nat
  /\ (producer_closed w = false -> res r <> Raise ProducerClosedError)
  /\ (forall h, absent h w = false -> absent h (world r) = false).
Proof.
  cbn zeta. unfold bucket_after, page_of.
  destruct (depth >? max_depth self) eqn:Hd.
  { rewrite scrape_skip_run by lia. cbn [out world res].
    repeat split; rewrite ?app_nil_r; try done; try (by left); cbn; lia. }
  assert (Hd' : depth <= max_depth self) by lia.
  destruct (fetch_failure env w url) as [e|] eqn:Hf.
  { rewrite (scrape_failure_run _ _ _ _ _ e) by done. cbn [out world res].
    unfold fetch_failure in Hf.
    destruct (requests_get env (asked w) url) as [resp|];
      [destruct (status_ok resp); [done|] |];
      (repeat split; rewrite ?app_nil_r; try done; try (by left); cbn; lia). }
  destruct (fetch_failure_none _ _ _ Hf) as (resp & Hg & Hs).
  rewrite Hg, Hs. cbn [andb].
  destruct (file_name_fits url) eqn:Hn; cycle 1.
  { rewrite (scrape_unwritable_run _ _ _ _ _ resp) by done. cbn [out world res].
    repeat split; rewrite ?app_nil_r; try done; try (by right); cbn; lia. }
  rewrite (scrape_fetched _ _ _ _ _ resp) by done.
  destruct (budget_and_links_summary env self url depth resp (stored env self url resp w))
    as (Hfe & Hfi & Hb & Hc & Hp & Ht & Hdp & He & Hk & Ho & Hl & Hpc & Hab).
  cbn zeta in *.
  set (q := budget_and_links env self url depth resp (stored env self url resp w)) in *.
  unfold prepend. cbn [out world res].
  rewrite fetched_app, sent_app, Hfe.
  assert (Hst : sent (store_trace env self url w) = []) by reflexivity.
  assert (Hft : fetched (store_trace env self url w) = [url]) by reflexivity.
  rewrite Hst, Hft. cbn [app].
  repeat split; try done; try (by left).
  - rewrite Hfi. unfold stored. cbn [files].
    apply map_eq. intros p. destruct (decide (p = file_path_of url)) as [->|Hp'].
    + by rewrite !lookup_delete_eq.
    + by rewrite !lookup_delete_ne, lookup_insert_ne.
Qed.

Lemma scrape_counter env self url depth w :
  let r := scrape env self url depth w in
  let key := urls_visited_key url in
  (page_of env self url depth w = None -> redis (world r) = redis w /\ sent (out r) = [])
  /\ (forall resp c, page_of env self url depth w = Some resp ->
        visited_count url w = Some c -> redis (world r) !! key = Some (RInt (c + 1)))
  /\ (forall resp, page_of env self url depth w = Some resp ->
        visited_count url w = None ->
        res r = Raise RedisResponseError /\ redis (world r) = redis w /\ sent (out r) = []).
Proof.
  cbn zeta. unfold page_of.
  destruct (depth >? max_depth self) eqn:Hd.
  { rewrite scrape_skip_run by lia. by repeat split. }
  assert (Hd' : depth <= max_depth self) by lia.
  destruct (fetch_failure env w url) as [e|] eqn:Hf.
  { rewrite (scrape_failure_run _ _ _ _ _ e) by done. cbn [out world res].
    unfold fetch_failure in Hf.
    destruct (requests_get env (asked w) url) as [resp|];
      [destruct (status_ok resp); [done|] |]; by repeat split. }
  destruct (fetch_failure_none _ _ _ Hf) as (resp & Hg & Hs).
  rewrite Hg, Hs. cbn [andb].
  destruct (file_name_fits url) eqn:Hn; cycle 1.
  { rewrite (scrape_unwritable_run _ _ _ _ _ resp) by done. by repeat split. }
  rewrite (scrape_fetched _ _ _ _ _ resp) by done.
  refine (conj _ (conj _ _)); [done| |].
  - intros ? c [= <-] Hc.
    destruct (budget_and_links_frame env self url depth resp (stored env self url resp w))
      as [_ H]. cbn zeta in H. unfold prepend. cbn [world]. by apply H.
  - intros ? [= <-] Hc. rewrite count_error by done. by repeat split.
Qed.

Lemma start_step env self url w :
  (logging (InfoStart url (max_depth self)) ;; scrape env self url 0) w
  = prepend [EvLog (InfoStart url (max_depth self))] (scrape env self url 0 w).
Proof. by erewrite bind_run by reflexivity. Qed.

Lemma start_scraping_summary env self urls w :
  let r := start_scraping env self urls w in
  fetched (out r) `prefix_of` (if 0 >? max_depth self then [] else urls)
  /\ (res r = Ret tt -> 0 <= max_depth self -> fetched (out r) = urls)
  /\ committed (world r) = committed w /\ producer_closed (world r) = producer_closed w
  /\ topic (world r) = topic w ++ sent (out r)
  /\ Forall (λ m, msg_depth m = 1) (sent (out r))
  /\ (ends_well (res r) = true
      \/ res r = Raise OSError /\ Exists (λ u, file_name_fits u = false) urls)
  /\ (one_link_per_key w -> one_link_per_key (world r))
  /\ (producer_closed w = false -> res r <> Raise ProducerClosedError)
  /\ (forall h, absent h w = false -> absent h (world r) = false).
Proof.
  unfold start_scraping. revert w. induction urls as [|url urls IH]; intros w.
  - cbn. repeat split; rewrite ?app_nil_r; try done; try (by left).
    by destruct (0 >? max_depth self).
  - cbn zeta. rewrite for_each_cons_run, start_step.
    destruct (scrape_summary env self url 0 w)
      as (Hfe & _ & _ & Hc & Hp & Ht & Hd & He & _ & Ho & _ & Hpc & Hab).
    cbn zeta in *.
    set (p := scrape env self url 0 w) in *.
    unfold prepend. cbn [out world res].
    assert (Hpre : fetched (out p) `prefix_of` (if 0 >? max_depth self then [] else url :: urls)).
    { rewrite Hfe. destruct (0 >? max_depth self); [apply prefix_nil|].
      apply prefix_cons, prefix_nil. }
    destruct (res p) as [[]| |] eqn:Hr; cbn [out world res app].
    + destruct (IH (world p)) as (Hfe' & Hr' & Hc' & Hp' & Ht' & Hd' & He' & Ho' & Hpc' & Hab').
      cbn zeta in *.
      set (q := for_each urls _ (world p)) in *.
      change (fetched (EvLog ?l :: ?x)) with (fetched x).
      change (sent (EvLog ?l :: ?x)) with (sent x).
      rewrite fetched_app, sent_app.
      repeat split; try congruence; auto.
      * rewrite Hfe. destruct (0 >? max_depth self) eqn:E.
        -- done.
        -- by apply prefix_cons.
      * intros Hq Hm. rewrite Hfe. destruct (0 >? max_depth self) eqn:E; [lia|].
        cbn [app]. f_equal. by apply Hr'.
      * rewrite Ht', Ht. by rewrite app_assoc.
      * by apply Forall_app_2.
      * destruct He' as [He'|[He' Hx]]; [by left|right].
        split; [done|]. by apply Exists_cons_tl.
      * intros Hclosed. apply Hpc'. congruence.
    + change (fetched (EvLog ?l :: ?x)) with (fetched x).
      change (sent (EvLog ?l :: ?x)) with (sent x).
      repeat split; try done.
      destruct He as [He|[He Hx]]; [by left|right].
      split; [done|]. by apply Exists_cons_hd.
    + by destruct He as [He|[He _]].
Qed.

Lemma Scraper_init_run env w :
  Scraper_init env w
  = mkRun [EvTime] (set_producer_closed false (tick w))
          (Ret (Example.scraper_at (time_time env (asked w)))).
Proof. reflexivity. Qed.

Lemma cleanup_run env w :
  cleanup env w
  = prepend [EvProducerClose] (empty_kafka_queue env (set_producer_closed true w)).
Proof.
  unfold cleanup, try_except.
  assert (H : (producer_close ;; empty_kafka_queue env) w
              = prepend [EvProducerClose] (empty_kafka_queue env (set_producer_closed true w))).
  { by erewrite bind_run by reflexivity. }
  rewrite H, empty_kafka_queue_run. unfold prepend. cbn [out world res].
  by destruct (iteration_ends env).
Qed.

Lemma pending_drained_nil w : pending (drained w) = [].
Proof.
  unfold drained. destruct (pending w) as [|m ms] eqn:E; [done|].
  unfold pending, drain_position in *. cbn [set_committed committed topic].
  apply drop_ge. apply (f_equal length) in E. rewrite length_drop in E.
  cbn [length] in *. cbn [from_option id]. lia.
Qed.

Lemma commits_quiet l : fetched (map EvCommit l) = [] /\ sent (map EvCommit l) = [].
Proof. induction l as [|x l [IH1 IH2]]; by split. Qed.

Lemma cleanup_summary env w :
  let r := cleanup env w in
  res r = (if iteration_ends env then Ret tt else Block)
  /\ producer_closed (world r) = true
  /\ pending (world r) = []
  /\ fetched (out r) = [] /\ sent (out r) = []
  /\ redis (world r) = redis w /\ topic (world r) = topic w
  /\ files (world r) = files w /\ bucket (world r) = bucket w.
Proof.
  cbn zeta. rewrite cleanup_run, empty_kafka_queue_run.
  unfold prepend. cbn [out world res].
  set (w' := set_producer_closed true w).
  assert (Hd : drained w' = w' \/ exists c, drained w' = set_committed c w').
  { unfold drained. destruct (pending w'); eauto. }
  destruct (commits_quiet (seq (S (drain_position w')) (length (pending w')))) as [Hf Hs].
  rewrite !fetched_app, !sent_app, Hf, Hs.
  refine (conj eq_refl (conj _ (conj (pending_drained_nil w') (conj _ (conj _ _))))).
  - by destruct Hd as [->|[c ->]].
  - by destruct (iteration_ends env).
  - by destruct (iteration_ends env).
  - by destruct Hd as [->|[c ->]].
Qed.

Lemma api_run env urls w :
  api_start_scraping env urls w
  = prepend [EvTime]
      (let s := start_scraping env (Example.scraper_at (time_time env (asked w))) urls
                  (set_producer_closed false (tick w)) in
       match res s with
       | Ret _ => prepend (out s) (cleanup env (world s))
       | Raise e => mkRun (out s) (world s) (Raise e)
       | Block => mkRun (out s) (world s) Block
       end).
Proof.
  unfold api_start_scraping. rewrite (bind_run _ _ _ _ _ _ (Scraper_init_run env w)).
  reflexivity.
Qed.

(** ** [create_file]: the name of the file *)

Lemma underscored_cons c u :
  underscored (String c u) = String (if is_separator c then "_"%char else c) (underscored u).
Proof.
  unfold underscored, is_separator. cbn [replace_char].
  destruct (Ascii.eqb_spec c "/") as [->|H1]; [reflexivity|].
  destruct (Ascii.eqb_spec c ":") as [->|H2]; [reflexivity|].
  destruct (Ascii.eqb_spec c ".") as [->|H3]; [reflexivity|].
  destruct (Ascii.eqb_spec c "_") as [->|H4]; reflexivity.
Qed.

Lemma file_name_of_underscored u : file_name_of u = underscored u +:+ ".txt".
Proof. reflexivity. Qed.

Lemma underscored_length u : String.length (underscored u) = String.length u.
Proof. induction u as [|c u IH]; [reflexivity|]. rewrite underscored_cons. cbn. by rewrite IH. Qed.

Lemma app_length_string a b :
  String.length (a +:+ b) = (String.length a + String.length b)%nat.
Proof.
  induction a as [|c a IH]; [reflexivity|].
  change (String c a +:+ b) with (String c (a +:+ b)). cbn [String.length Nat.add].
  by rewrite IH.
Qed.

Lemma underscored_occurs c u : is_separator c = true -> c <> "_"%char -> occurs c (underscored u) = false.
Proof.
  intros Hs Hc. induction u as [|c' u IH]; [reflexivity|].
  rewrite underscored_cons. cbn [occurs]. rewrite IH, orb_false_r.
  destruct (is_separator c') eqn:E.
  - apply Ascii.eqb_neq. congruence.
  - apply Ascii.eqb_neq. intros ->. congruence.
Qed.

Lemma occurs_app c a b : occurs c (a +:+ b) = occurs c a || occurs c b.
Proof.
  induction a as [|c' a IH]; [reflexivity|].
  change (String c' a +:+ b) with (String c' (a +:+ b)). cbn [occurs].
  by rewrite IH, orb_assoc.
Qed.

Lemma app_inj_r a b t : a +:+ t = b +:+ t -> a = b.
Proof.
  revert b. induction a as [|c a IH]; intros [|c' b] H.
  - reflexivity.
  - apply (f_equal String.length) in H. rewrite !app_length_string in H. cbn in H. lia.
  - apply (f_equal String.length) in H. rewrite !app_length_string in H. cbn in H. lia.
  - change (String c (a +:+ t) = String c' (b +:+ t)) in H.
    injection H as -> H. f_equal. by apply IH.
Qed.

Lemma underscored_alike u u' : underscored u = underscored u' <-> alike u u' = true.
Proof.
  revert u'. induction u as [|c u IH]; intros [|c' u']; cbn [alike].
  - done.
  - rewrite underscored_cons. change (underscored "") with "". split; intros H; discriminate H.
  - rewrite underscored_cons. change (underscored "") with "". split; intros H; discriminate H.
  - rewrite !underscored_cons, andb_true_iff, <- IH. split.
    + intros [= Hc Hu]. split; [|done].
      destruct (is_separator c) eqn:E, (is_separator c') eqn:E'; cbn.
      * by rewrite orb_true_r.
      * subst c'. unfold is_separator in E'. cbn in E'. done.
      * subst c. unfold is_separator in E. cbn in E. done.
      * subst c'. by rewrite Ascii.eqb_refl.
    + intros [Hc ->]. f_equal.
      apply orb_true_iff in Hc as [Hc|Hc].
      * apply Ascii.eqb_eq in Hc. by subst.
      * apply andb_true_iff in Hc as [-> ->]. done.
Qed.

(** X1. The file name [create_file] derives from a URL has four
    characters more than the URL, contains no '/' and no ':', and its
    only '.' is the one of the suffix ".txt".  So the name is a single
    path component: [os.path.join(".", filename)] never drops the output
    directory, and the file is written as "./" followed by the name. *)
Theorem file_name_shape url :
  String.length (file_name_of url) = (String.length url + 4)%nat
  /\ occurs "/" (file_name_of url) = false
  /\ occurs ":" (file_name_of url) = false
  /\ (exists stem, file_name_of url = stem +:+ ".txt" /\ occurs "." stem = false
                   /\ String.length stem = String.length url)
  /\ os_path_join "." (file_name_of url) = file_path_of url.
Proof.
  rewrite file_name_of_underscored. refine (conj _ (conj _ (conj _ (conj _ _)))).
  - rewrite app_length_string, underscored_length. reflexivity.
  - rewrite occurs_app, underscored_occurs by done. reflexivity.
  - rewrite occurs_app, underscored_occurs by done. reflexivity.
  - exists (underscored url). split; [done|]. split; [by apply underscored_occurs | apply underscored_length].
  - unfold os_path_join, file_path_of. rewrite file_name_of_underscored.
    destruct url as [|c url]; [reflexivity|]. rewrite underscored_cons.
    destruct (is_separator c) eqn:E; [reflexivity|].
    change (String c (underscored url) +:+ ".txt") with (String c (underscored url +:+ ".txt")).
    cbn [String.prefix].
    destruct (Ascii.ascii_dec "/" c) as [<-|Hc]; [done|]. reflexivity.
Qed.

(** X2. [create_file] does not keep URLs apart: two URLs get the
    same file name exactly when they have the same length and agree at
    every position, except where both have one of '/', ':', '.', '_'. *)
Theorem file_name_collision url url' :
  file_name_of url = file_name_of url' <-> alike url url' = true.
Proof.
  rewrite !file_name_of_underscored, <- underscored_alike. split; [apply app_inj_r | by intros ->].
Qed.

(** ** [delete_file] *)

(** X3. [delete_file] never raises, whatever [os.remove] does: an
    exception of [os.remove] is printed, and the world is as [os.remove]
    left it.  With an [os.remove] that fails only for a missing file,
    the path does not exist afterwards and every other local file is as
    before; Redis, S3 and the topic are untouched; the function prints
    that the file was deleted when it existed, and only that it was not
    found otherwise. *)
Theorem delete_file_total remove file_path w :
  delete_file file_path = delete_file_with os_remove file_path
  /\ (let r := delete_file_with remove file_path w in
      (forall e, res r <> Raise e) /\ world r = world (remove file_path w))
  /\ (let r := delete_file file_path w in
      res r = Ret tt
      /\ files (world r) = delete file_path (files w)
      /\ out r = match files w !! file_path with
                 | Some _ => [EvFileRemove file_path; EvLog (PrintFileDeleted file_path)]
                 | None => [EvLog (PrintFileNotFound file_path)]
                 end
      /\ redis (world r) = redis w /\ bucket (world r) = bucket w
      /\ topic (world r) = topic w).
Proof.
  refine (conj eq_refl (conj _ _)); cbn zeta.
  - unfold delete_file_with. run.
    destruct (remove file_path w) as [o w' [[]|e|]]; cbn [out world res]; [done| |done].
    by destruct e.
  - destruct (files w !! file_path) as [c|] eqn:Hf.
    + rewrite (delete_file_run _ c) by done. by repeat split.
    + unfold delete_file, os_remove. run. rewrite Hf. run.
      repeat split. symmetry. by apply delete_id.
Qed.

(** ** The read handlers *)

Lemma split_once_missing sep s : occurs sep s = false -> split_once sep s = [s].
Proof.
  induction s as [|c s IH]; [done|]. cbn [occurs split_once].
  destruct (Ascii.eqb c sep); [done|]. cbn [orb]. intros H. by rewrite IH.
Qed.

Lemma split_once_app sep a b :
  occurs sep a = false -> split_once sep (a +:+ String sep b) = [a; b].
Proof.
  induction a as [|c a IH].
  - intros _. change ("" +:+ String sep b) with (String sep b).
    cbn [split_once]. by rewrite Ascii.eqb_refl.
  - change (String c a +:+ String sep b) with (String c (a +:+ String sep b)).
    cbn [occurs split_once]. destruct (Ascii.eqb c sep); [done|]. cbn [orb].
    intros H. by rewrite IH.
Qed.

Lemma split_once_found sep s :
  occurs sep s = true ->
  exists a b, s = a +:+ String sep b /\ occurs sep a = false.
Proof.
  induction s as [|c s IH]; [done|]. cbn [occurs].
  destruct (Ascii.eqb_spec c sep) as [->|Hc].
  - intros _. by exists "", s.
  - cbn [orb]. intros H. destruct (IH H) as (a & b & -> & Ha).
    exists (String c a), b. split; [done|]. cbn [occurs].
    apply Ascii.eqb_neq in Hc. by rewrite Hc.
Qed.

Lemma read_file_stored {E} (no_such_key : E) b name url raw_html :
  b !! ("yonatangazitwebscraper", name) = Some (url +:+ newline +:+ raw_html) ->
  occurs newline_char url = false ->
  read_file (inr (s3_client_of no_such_key b)) name = mkReply [] (inr (RawPage url raw_html)).
Proof.
  intros Hb Hn. unfold read_file, get_file_content_from_s3, s3_client_of. cbn [get_object].
  rewrite Hb. cbn [answer logged].
  change (url +:+ newline +:+ raw_html) with (url +:+ String newline_char raw_html).
  rewrite split_once_app by done.
  destruct url; reflexivity.
Qed.

Lemma keys_of_perm b bkt : keys_of b bkt ≡ₚ omap (key_in bkt) (map_to_list b).
Proof. unfold keys_of. apply merge_sort_Permutation. Qed.

Lemma elem_of_keys_of b bkt k : k ∈ keys_of b bkt <-> is_Some (b !! (bkt, k)).
Proof.
  rewrite keys_of_perm, list_elem_of_omap. split.
  - intros ([[bk k'] c] & Hin & Hk). unfold key_in in Hk. cbn in Hk.
    destruct (decide (bk = bkt)) as [->|]; [|done]. injection Hk as ->.
    apply elem_of_map_to_list in Hin. eauto.
  - intros [c Hc]. exists (bkt, k, c). split; [by apply elem_of_map_to_list|].
    unfold key_in. cbn. by destruct (decide (bkt = bkt)).
Qed.

Lemma NoDup_key_in bkt (l : list (string * string * string)) :
  NoDup (l.*1) -> NoDup (omap (key_in bkt) l).
Proof.
  induction l as [|[[bk k] c] l IH]; [constructor|].
  rewrite fmap_cons, NoDup_cons. intros [Hn Hl]. cbn [omap list_omap].
  unfold key_in at 1. cbn [fst snd]. destruct (decide (bk = bkt)) as [->|]; [|by apply IH].
  apply NoDup_cons. split; [|by apply IH].
  intros Hin. apply Hn. apply list_elem_of_omap in Hin as ([[bk' k'] c'] & Hin & Hk).
  unfold key_in in Hk. cbn in Hk. destruct (decide (bk' = bkt)) as [->|]; [|done].
  injection Hk as ->. apply list_elem_of_fmap. by exists (bkt, k, c').
Qed.

Lemma NoDup_keys_of b bkt : NoDup (keys_of b bkt).
Proof. rewrite keys_of_perm. apply NoDup_key_in, NoDup_fst_map_to_list. Qed.

Lemma length_keys_of b bkt : (length (keys_of b bkt) <= size b)%nat.
Proof.
  rewrite keys_of_perm, <- length_map_to_list. 
  induction (map_to_list b) as [|p l IH]; [done|]. cbn [omap list_omap length].
  destruct (key_in bkt p); cbn [length]; lia.
Qed.

Lemma read_files_run {E} (no_such_key : E) b :
  read_files (inr (s3_client_of no_such_key b))
  = mkReply [] (inr (take 1000 (keys_of b "yonatangazitwebscraper"))).
Proof.
  unfold read_files, s3_client_of. cbn [list_objects_v2].
  by destruct (take 1000 (keys_of b "yonatangazitwebscraper")).
Qed.

(** X4. The four outcomes of [read_file] once the S3 client
    exists.  When reading the object fails, the exception is logged and
    the reply is the error "File not found"; an object whose content is
    empty gets the same reply, without a log line.  A content that is
    not empty and has no newline makes the handler raise (the
    unpacking of [split('\n', 1)] fails).  Otherwise the reply holds the
    text before the first newline as raw_url and all the text after it
    as raw_html: the two, joined by a newline, are the content. *)
Theorem read_file_cases {E} (s3_client : S3Client E) file_name :
  let got := get_object s3_client "yonatangazitwebscraper" file_name in
  let r := read_file (inr s3_client) file_name in
  (forall e, got = inl e -> r = mkReply [e] (inr (ErrorReply "File not found")))
  /\ (got = inr "" -> r = mkReply [] (inr (ErrorReply "File not found")))
  /\ (forall content, got = inr content -> content <> "" ->
        occurs newline_char content = false -> r = mkReply [] (inl UnpackError))
  /\ (forall content, got = inr content -> occurs newline_char content = true ->
        exists raw_url raw_html,
          r = mkReply [] (inr (RawPage raw_url raw_html))
          /\ content = raw_url +:+ newline +:+ raw_html
          /\ occurs newline_char raw_url = false).
Proof.
  cbn zeta. unfold read_file, get_file_content_from_s3.
  destruct (get_object s3_client "yonatangazitwebscraper" file_name) as [e|content].
  { repeat split; try done. by intros e' [= <-]. }
  cbn [answer logged]. refine (conj _ (conj _ (conj _ _))); [done| | |].
  - by intros [= ->].
  - intros ? [= <-] Hne Ho. destruct content as [|c content]; [done|].
    by rewrite split_once_missing.
  - intros ? [= <-] Ho. destruct (split_once_found _ _ Ho) as (a & b & -> & Ha).
    exists a, b. split; [|done].
    rewrite split_once_app by done.
    destruct a; reflexivity.
Qed.

(** X5. [read_files] makes one call of [list_objects_v2] and
    no further one: over an S3 with content [b] it returns at most 1000
    names, without repetition, each the key of an object of the bucket
    'yonatangazitwebscraper'; when S3 holds at most 1000 objects, every
    key of that bucket is listed.  An empty bucket gives the empty
    list. *)
Theorem read_files_listing {E} (no_such_key : E) b :
  exists keys,
    read_files (inr (s3_client_of no_such_key b)) = mkReply [] (inr keys)
    /\ (length keys <= 1000)%nat
    /\ NoDup keys
    /\ (forall k, k ∈ keys -> is_Some (b !! ("yonatangazitwebscraper", k)))
    /\ ((size b <= 1000)%nat ->
        forall k, is_Some (b !! ("yonatangazitwebscraper", k)) -> k ∈ keys).
Proof.
  exists (take 1000 (keys_of b "yonatangazitwebscraper")).
  refine (conj _ (conj _ (conj _ (conj _ _)))).
  - unfold read_files, s3_client_of. cbn [list_objects_v2].
    by destruct (take 1000 (keys_of b "yonatangazitwebscraper")).
  - rewrite length_take. lia.
  - eapply sublist_NoDup; [apply NoDup_keys_of|apply sublist_take].
  - intros k Hk. apply elem_of_keys_of. eapply elem_of_sublist; [exact Hk|apply sublist_take].
  - intros Hs k Hk. rewrite take_ge; [by apply elem_of_keys_of|].
    pose proof (length_keys_of b "yonatangazitwebscraper"). lia.
Qed.

(** X6. Round trip.  After [scrape] fetched a page, created its
    file and uploaded it, by a [Scraper] whose bucket is the one the
    handlers read,
    [read_file] for the file name of the URL returns the URL as raw_url
    and the text of the response as raw_html, provided the URL has no
    newline; and [read_files] lists that file name when S3 held fewer
    than 1000 objects before. *)
Theorem scrape_then_read {E} (no_such_key : E) env self url depth w resp :
  page_of env self url depth w = Some resp ->
  upload_raises env (S (asked w)) = false ->
  bucket_name self = "yonatangazitwebscraper" ->
  let s3 := s3_client_of no_such_key (bucket (world (scrape env self url depth w))) in
  (occurs newline_char url = false ->
   read_file (inr s3) (file_name_of url) = mkReply [] (inr (RawPage url (text resp))))
  /\ ((size (bucket w) < 1000)%nat ->
      exists keys, read_files (inr s3) = mkReply [] (inr keys) /\ file_name_of url ∈ keys).
Proof.
  intros Hp Hu Hb. cbn zeta.
  destruct (scrape_summary env self url depth w) as (_ & _ & Hbk & _).
  cbn zeta in Hbk. rewrite Hbk. unfold bucket_after. rewrite Hp, Hu, Hb. split.
  - intros Hn. apply read_file_stored; [|done]. apply lookup_insert_eq.
  - intros Hs. rewrite read_files_run. eexists. split; [reflexivity|].
    rewrite take_ge.
    + apply elem_of_keys_of. rewrite lookup_insert_eq. eauto.
    + pose proof (length_keys_of
                    (<[("yonatangazitwebscraper", file_name_of url)
                       := url +:+ newline +:+ text resp]> (bucket w))
                    "yonatangazitwebscraper") as Hl.
      rewrite map_size_insert in Hl.
      destruct (bucket w !! ("yonatangazitwebscraper", file_name_of url));
        unfold id in Hl; lia.
Qed.

Lemma scrape_then_read_witness :
  let s3 := s3_client_of tt
              (bucket (world (scrape (Example.env_of Example.linked_site false Example.on_time)
                                (Example.scraper_at 0%Q) Example.page_url 0
                                Example.empty_world))) in
  (occurs newline_char Example.page_url = false ->
   read_file (inr s3) (file_name_of Example.page_url)
   = mkReply [] (inr (RawPage Example.page_url
                        (text (Response 200 Example.page_url Example.page_url)))))
  /\ ((size (bucket Example.empty_world) < 1000)%nat ->
      exists keys, read_files (inr s3) = mkReply [] (inr keys)
                   /\ file_name_of Example.page_url ∈ keys).
Proof.
  apply (scrape_then_read tt
           (Example.env_of Example.linked_site false Example.on_time)
           (Example.scraper_at 0%Q) Example.page_url 0 Example.empty_world
           (Response 200 Example.page_url Example.page_url)).
  - vm_compute. reflexivity.
  - reflexivity.
  - reflexivity.
Defined.

Example read_back_page :
  read_file (inr (s3_client_of tt
     (bucket (world (scrape (Example.env_of Example.linked_site false Example.on_time)
                       (Example.scraper_at 0%Q) Example.page_url 0
                       Example.empty_world)))))
    "http___a_test_.txt"
  = mkReply [] (inr (RawPage "http://a.test/" "http://a.test/")).
Proof. vm_compute. reflexivity. Qed.

(** X7. Pages of alike URLs overwrite each other.  When the
    URLs [url] and [url'] get the same file name, after [scrape url] and
    then a [scrape url'] that fetches the page, creates its file and
    uploads it, the object read under the file name of [url] is the page
    of [url']: the page of [url] is gone. *)
Theorem alike_urls_share_one_object {E} (no_such_key : E)
    env self url depth url' depth' w resp' :
  alike url url' = true ->
  let w1 := world (scrape env self url depth w) in
  page_of env self url' depth' w1 = Some resp' ->
  upload_raises env (S (asked w1)) = false ->
  bucket_name self = "yonatangazitwebscraper" ->
  occurs newline_char url' = false ->
  read_file (inr (s3_client_of no_such_key
                    (bucket (world (scrape env self url' depth' w1)))))
            (file_name_of url)
  = mkReply [] (inr (RawPage url' (text resp'))).
Proof.
  intros Hal w1 Hp Hu Hb Hn.
  assert (Hname : file_name_of url = file_name_of url').
  { rewrite !file_name_of_underscored. f_equal. by apply underscored_alike. }
  destruct (scrape_summary env self url' depth' w1) as (_ & _ & Hbk & _).
  cbn zeta in Hbk. apply read_file_stored; [|done].
  rewrite Hbk. unfold bucket_after. rewrite Hp, Hu, Hb, Hname. apply lookup_insert_eq.
Qed.

Lemma alike_urls_share_one_object_witness :
  let env := Example.env_of two_alike_pages false Example.on_time in
  let w1 := world (scrape env (Example.scraper_at 0%Q) "http://a.test/" 0
                     Example.empty_world) in
  read_file (inr (s3_client_of tt
                    (bucket (world (scrape env (Example.scraper_at 0%Q)
                                      "http://a_test/" 0 w1)))))
            (file_name_of "http://a.test/")
  = mkReply [] (inr (RawPage "http://a_test/"
                       (text (Response 200 "http://a_test/" "http://a_test/")))).
Proof.
  apply (alike_urls_share_one_object tt
           (Example.env_of two_alike_pages false Example.on_time)
           (Example.scraper_at 0%Q) "http://a.test/" 0 "http://a_test/" 0
           Example.empty_world (Response 200 "http://a_test/" "http://a_test/")).
  - vm_compute. reflexivity.
  - vm_compute. reflexivity.
  - reflexivity.
  - reflexivity.
  - vm_compute. reflexivity.
Defined.

(** ** [scrape]: files, S3, the topic *)

(** X8. [scrape] leaves no temporary file: when it goes on
    with a fetched page, the local files afterwards are those before
    without the path of the page's file (a file that existed under that
    path is lost); when the depth is refused or the fetch fails (or
    [open] rejects the file name), the local files are unchanged.  This
    holds however the call ends. *)
Theorem scrape_local_files env self url depth w :
  let r := scrape env self url depth w in
  files (world r)
  = match page_of env self url depth w with
    | Some _ => delete (file_path_of url) (files w)
    | None => files w
    end.
Proof. apply scrape_summary. Qed.

(** X9. [scrape] changes at most one S3 object: after a fetched
    page whose file was created and whose upload succeeds, the object
    under the page's file name in
    the scraper's bucket holds the URL, a newline and the text of the
    response, replacing what was there; in every other case S3 is
    unchanged. *)
Theorem scrape_bucket env self url depth w :
  let r := scrape env self url depth w in
  bucket (world r)
  = match page_of env self url depth w with
    | Some response =>
        if upload_raises env (S (asked w)) then bucket w
        else <[(bucket_name self, file_name_of url) := url +:+ newline +:+ text response]>
               (bucket w)
    | None => bucket w
    end.
Proof. apply scrape_summary. Qed.

(** X10. [scrape] requests its own URL once, or nothing when
    the depth is refused, and never a discovered link: links are only
    published.  The topic afterwards is the topic before followed by the
    published records, each of which carries the depth of the task plus
    one; there are at most as many as the page has anchors.  The
    committed offset and the producer are untouched. *)
Theorem scrape_publishes_children env self url depth w :
  let r := scrape env self url depth w in
  fetched (out r) = (if depth >? max_depth self then [] else [url])
  /\ topic (world r) = topic w ++ sent (out r)
  /\ Forall (λ m, msg_depth m = depth + 1) (sent (out r))
  /\ (length (sent (out r))
      <= match page_of env self url depth w with
         | Some p => length (find_all_a env (content p))
         | None => 0
         end)%nat
  /\ committed (world r) = committed w
  /\ producer_closed (world r) = producer_closed w.
Proof.
  destruct (scrape_summary env self url depth w)
    as (Hf & _ & _ & Hc & Hp & Ht & Hd & _ & _ & _ & Hl & _).
  cbn zeta in *. by repeat split.
Qed.

(** X11. A task at the depth bound (or beyond it) still
    publishes its links, but each of these records is refused by
    whoever scrapes it: [scrape] of the record's URL at the record's
    depth only logs the refusal, in any world. *)
Theorem deepest_links_never_fetched env self url depth w :
  max_depth self <= depth ->
  Forall (λ m, forall w',
            scrape env self (msg_url m) (msg_depth m) w'
            = mkRun [EvLog (InfoDepthExceeded (depth + 1) (max_depth self))] w' (Ret tt))
         (sent (out (scrape env self url depth w))).
Proof.
  intros Hm.
  destruct (scrape_summary env self url depth w)
    as (_ & _ & _ & _ & _ & _ & Hd & _).
  cbn zeta in Hd. eapply Forall_impl; [exact Hd|].
  intros m Hmd w'. cbn beta in Hmd. rewrite Hmd. apply scrape_skip_run. lia.
Qed.

Lemma deepest_links_never_fetched_witness :
  Forall (λ m, forall w',
            scrape (Example.env_of Example.linked_site false Example.on_time)
                   (Example.scraper_at 0%Q) (msg_url m) (msg_depth m) w'
            = mkRun [EvLog (InfoDepthExceeded (2 + 1) 2)] w' (Ret tt))
         (sent (out (scrape (Example.env_of Example.linked_site false Example.on_time)
                            (Example.scraper_at 0%Q) Example.page_url 2
                            Example.empty_world))).
Proof.
  apply (deepest_links_never_fetched
           (Example.env_of Example.linked_site false Example.on_time)
           (Example.scraper_at 0%Q) Example.page_url 2 Example.empty_world).
  vm_compute. discriminate.
Defined.

Example deepest_links_published :
  sent (out (scrape (Example.env_of Example.linked_site false Example.on_time)
                    (Example.scraper_at 0%Q) Example.page_url 2 Example.empty_world))
  = [Message "http://b.test/x" 3; Message "/about" 3].
Proof. vm_compute. reflexivity. Qed.

(** ** [scrape]: the counters *)

Lemma visited_count_same url w w' :
  redis w' !! urls_visited_key url = redis w !! urls_visited_key url ->
  visited_count url w' = visited_count url w.
Proof. unfold visited_count. by intros ->. Qed.

Lemma count_exhausted_scrape env self' url' depth' limit url w :
  count_exhausted limit url w ->
  count_exhausted limit url (world (scrape env self' url' depth' w)).
Proof.
  intros Hx. unfold count_exhausted in *.
  destruct (scrape_summary env self' url' depth' w)
    as (_ & _ & _ & _ & _ & _ & _ & _ & Hk & _).
  destruct (scrape_counter env self' url' depth' w) as (Hn & Hc & He).
  cbn zeta in *.
  destruct (decide (url' = url)) as [->|Hne].
  - destruct (page_of env self' url depth' w) as [resp|] eqn:Hp.
    + destruct (visited_count url w) as [c|] eqn:Hv.
      * unfold visited_count at 1. rewrite (Hc resp c eq_refl eq_refl).
        destruct ((int64_min <=? c + 1) && (c + 1 <? int64_max)); [lia|done].
      * destruct (He resp eq_refl eq_refl) as (_ & Hr & _).
        rewrite (visited_count_same url w) by (by rewrite Hr). by rewrite Hv.
    + destruct (Hn eq_refl) as [Hr _].
      rewrite (visited_count_same url w) by (by rewrite Hr). exact Hx.
  - rewrite (visited_count_same url w); [exact Hx|]. apply Hk.
    + intros H. apply urls_visited_key_inj in H. congruence.
    + intros h. apply visited_key_not_counter.
Qed.

Lemma count_exhausted_after env tasks limit url w :
  count_exhausted limit url w -> count_exhausted limit url (after_scrapes env tasks w).
Proof.
  revert w. induction tasks as [|[[self' url'] depth'] tasks IH]; intros w Hx; [done|].
  cbn [after_scrapes]. by apply IH, count_exhausted_scrape.
Qed.

Lemma exhausted_no_links env self url depth w :
  count_exhausted (max_urls self) url w ->
  sent (out (scrape env self url depth w)) = [].
Proof.
  intros Hx. unfold count_exhausted in Hx.
  destruct (scrape_counter env self url depth w) as (Hn & _ & He). cbn zeta in *.
  destruct (page_of env self url depth w) as [resp|] eqn:Hp.
  - destruct (visited_count url w) as [c|] eqn:Hv.
    + unfold page_of in Hp.
      destruct (depth >? max_depth self) eqn:Hd; [done|].
      destruct (requests_get env (asked w) url) as [r|] eqn:Hg; [|done].
      destruct (status_ok r) eqn:Hs; [|done].
      destruct (file_name_fits url) eqn:Hfit; [|done]. injection Hp as ->.
      rewrite (scrape_fetched _ _ _ _ _ resp) by (done || lia).
      rewrite (count_run _ _ _ _ _ c) by exact Hv.
      destruct (c + 1 >=? max_urls self) eqn:E; [|lia]. reflexivity.
    + by destruct (He resp eq_refl eq_refl) as (_ & _ & Hs).
  - by destruct (Hn eq_refl).
Qed.

(** X12. [scrape] touches no counter but the one of its own
    URL.  When the depth is refused, the fetch fails or [open] rejects
    the name of the page's file, Redis is unchanged; when the page is
    fetched, its file created and the counter accepts the increment, the
    counter afterwards is exactly one more than before, however the call
    ends. *)
Theorem scrape_counters env self url depth w :
  let r := scrape env self url depth w in
  (forall u, u <> url ->
     redis (world r) !! urls_visited_key u = redis w !! urls_visited_key u)
  /\ (page_of env self url depth w = None -> redis (world r) = redis w)
  /\ (forall resp c, page_of env self url depth w = Some resp ->
        visited_count url w = Some c ->
        redis (world r) !! urls_visited_key url = Some (RInt (c + 1))).
Proof.
  destruct (scrape_summary env self url depth w)
    as (_ & _ & _ & _ & _ & _ & _ & _ & Hk & _).
  destruct (scrape_counter env self url depth w) as (Hn & Hc & _).
  cbn zeta in *. refine (conj _ (conj _ Hc)).
  - intros u Hu. apply Hk.
    + intros H. by apply urls_visited_key_inj in H.
    + intros h. apply visited_key_not_counter.
  - intros H. by apply Hn.
Qed.

(** X13. When the counter of the URL holds a value that INCR
    rejects (not an integer, or the largest 64-bit integer), [scrape]
    of a page that is fetched and whose file is created raises the
    Redis error after the page was uploaded and its temporary file
    removed: Redis is unchanged and no link is published. *)
Theorem scrape_counter_rejected env self url depth w resp :
  page_of env self url depth w = Some resp ->
  visited_count url w = None ->
  let r := scrape env self url depth w in
  res r = Raise RedisResponseError
  /\ fetched (out r) = [url]
  /\ sent (out r) = []
  /\ redis (world r) = redis w
  /\ files (world r) !! file_path_of url = None
  /\ (upload_raises env (S (asked w)) = false ->
      bucket (world r) !! (bucket_name self, file_name_of url)
      = Some (url +:+ newline +:+ text resp)).
Proof.
  intros Hp Hc.
  destruct (scrape_summary env self url depth w)
    as (Hf & Hfi & Hb & _).
  destruct (scrape_counter env self url depth w) as (_ & _ & Hn).
  cbn zeta in *. destruct (Hn resp Hp Hc) as (Hr & Hre & Hs).
  unfold bucket_after in Hb. rewrite Hp in Hfi, Hb.
  unfold page_of in Hp. destruct (depth >? max_depth self); [done|].
  refine (conj Hr (conj Hf (conj Hs (conj Hre (conj _ _))))).
  - rewrite Hfi. apply lookup_delete_eq.
  - intros Hu. rewrite Hb, Hu. apply lookup_insert_eq.
Qed.

Lemma scrape_counter_rejected_witness :
  let r := scrape (Example.env_of Example.linked_site false Example.on_time)
                  (Example.scraper_at 0%Q) Example.page_url 0
                  (Example.world_with_count int64_max) in
  res r = Raise RedisResponseError
  /\ fetched (out r) = [Example.page_url]
  /\ sent (out r) = []
  /\ redis (world r) = redis (Example.world_with_count int64_max)
  /\ files (world r) !! file_path_of Example.page_url = None
  /\ (upload_raises (Example.env_of Example.linked_site false Example.on_time)
        (S (asked (Example.world_with_count int64_max))) = false ->
      bucket (world r)
        !! (bucket_name (Example.scraper_at 0%Q), file_name_of Example.page_url)
      = Some (Example.page_url +:+ newline
              +:+ text (Response 200 Example.page_url Example.page_url))).
Proof.
  apply (scrape_counter_rejected
           (Example.env_of Example.linked_site false Example.on_time)
           (Example.scraper_at 0%Q) Example.page_url 0
           (Example.world_with_count int64_max)
           (Response 200 Example.page_url Example.page_url)).
  - vm_compute. reflexivity.
  - vm_compute. reflexivity.
Defined.

(** X14. The count limit is permanent.  Once the counter of a
    URL is at least [max_urls - 1], no later [scrape] of that URL
    publishes a link, whatever was scraped in between, by whichever
    [Scraper]: nothing ever lowers a counter. *)
Theorem count_limit_is_permanent env self url depth tasks w c :
  visited_count url w = Some c ->
  max_urls self <= c + 1 ->
  sent (out (scrape env self url depth (after_scrapes env tasks w))) = [].
Proof.
  intros Hv Hm. apply exhausted_no_links, count_exhausted_after.
  unfold count_exhausted. by rewrite Hv.
Qed.

Lemma count_limit_is_permanent_witness :
  sent (out (scrape (Example.env_of Example.linked_site false Example.on_time)
               (Example.scraper_at 0%Q) Example.page_url 0
               (after_scrapes (Example.env_of Example.linked_site false Example.on_time)
                  [(Example.scraper_at 0%Q, Example.page_url, 0);
                   (Example.scraper_at 0%Q, "http://b.test/x", 1)]
                  (Example.world_with_count 4)))) = [].
Proof.
  apply (count_limit_is_permanent
           (Example.env_of Example.linked_site false Example.on_time)
           (Example.scraper_at 0%Q) Example.page_url 0
           [(Example.scraper_at 0%Q, Example.page_url, 0);
            (Example.scraper_at 0%Q, "http://b.test/x", 1)]
           (Example.world_with_count 4) 4).
  - vm_compute. reflexivity.
  - vm_compute. discriminate.
Defined.

(** X15. The exceptions [scrape] lets through, with collaborators that
    fail only as the model has it.  [scrape] returns, or raises a Redis
    error (a key of the wrong type, a counter INCR rejects), or a
    ValueError of urllib on a link, or the error of a closed producer,
    the last only when the producer was closed before the call, or the
    OSError of [open] in [create_file], only when the name of the page's
    file is too long.  That OSError does leave [scrape]: a task within
    the depth bound whose fetch succeeds and whose file name is too
    long raises it, for [create_file] is called outside the two [try]
    blocks.  Failures of the request, of the HTTP status, of the upload
    and of the file removal never leave [scrape], and the read of the
    counter after INCR cannot fail. *)
Theorem scrape_exceptions env self url depth w :
  let r := scrape env self url depth w in
  (res r = Ret tt
   \/ res r = Raise RedisResponseError
   \/ res r = Raise ValueError
   \/ (res r = Raise ProducerClosedError /\ producer_closed w = true)
   \/ (res r = Raise OSError /\ file_name_fits url = false))
  /\ (depth <= max_depth self -> fetch_failure env w url = None ->
      file_name_fits url = false -> res r = Raise OSError).
Proof.
  destruct (scrape_summary env self url depth w)
    as (_ & _ & _ & _ & _ & _ & _ & He & _ & _ & _ & Hpc & _).
  cbn zeta in *. split.
  - destruct He as [He|He]; [|by auto 6].
    destruct (ends_well_cases _ He) as [[[] H]|[H|[H|H]]]; auto.
    right. right. right. left. split; [done|].
    destruct (producer_closed w); [done|]. by destruct Hpc.
  - intros Hd Hf Hn. destruct (fetch_failure_none _ _ _ Hf) as (resp & Hg & Hs).
    by rewrite (scrape_unwritable_run _ _ _ _ _ resp).
Qed.

Example long_url_raises_after_fetch :
  String.length long_url = 252%nat
  /\ scrape (Example.env_of [(long_url, (200, [Some "http://b.test/x"]))] false
              Example.on_time)
       (Example.scraper_at 0%Q) long_url 0 Example.empty_world
     = mkRun [EvHttpGet long_url] (tick Example.empty_world) (Raise OSError).
Proof. split; vm_compute; reflexivity. Qed.

(** ** [process_link] *)

(** X16. A new link with a scheme is published as it is
    written, with the given depth, after the membership test and the
    insert. *)
Theorem process_link_absolute env self href depth w (p : url_parts) :
  href <> EmptyString ->
  absent href w = true ->
  producer_closed w = false ->
  urlparse env href = Some p ->
  scheme p <> EmptyString ->
  process_link env self (Some href) depth w
  = mkRun [EvSismember (visited_key href) href; EvSadd (visited_key href) href;
           EvSend (Message href depth)]
          (set_topic (λ t, t ++ [Message href depth]) (mark_visited href w))
          (Ret tt).
Proof.
  intros Hne Ha Hc Hp Hs.
  rewrite process_link_absent by done.
  erewrite publish_absolute_run; eauto.
Qed.

Lemma process_link_absolute_witness :
  process_link (Example.env_of Example.plain_site false Example.on_time)
               (Example.scraper_at 0%Q) (Some "http://b.test/x") 1 Example.empty_world
  = mkRun [EvSismember (visited_key "http://b.test/x") "http://b.test/x";
           EvSadd (visited_key "http://b.test/x") "http://b.test/x";
           EvSend (Message "http://b.test/x" 1)]
          (set_topic (λ t, t ++ [Message "http://b.test/x" 1])
             (mark_visited "http://b.test/x" Example.empty_world))
          (Ret tt).
Proof.
  apply (process_link_absolute
           (Example.env_of Example.plain_site false Example.on_time)
           (Example.scraper_at 0%Q) "http://b.test/x" 1 Example.empty_world
           (UrlParts "http" "b.test")).
  - vm_compute. discriminate.
  - vm_compute. reflexivity.
  - reflexivity.
  - vm_compute. reflexivity.
  - vm_compute. discriminate.
Defined.

(** X17. The link is marked before it is published.  When a
    call of [process_link] for a new link raises (urllib rejects the
    link, or the producer is closed), nothing was published, yet the
    link is recorded as visited: every later call for it only tests the
    membership and returns, so the link is never published. *)
Theorem process_link_marks_before_publishing env self href depth w e :
  href <> EmptyString ->
  absent href w = true ->
  res (process_link env self (Some href) depth w) = Raise e ->
  let r := process_link env self (Some href) depth w in
  sent (out r) = []
  /\ world r = mark_visited href w
  /\ visited href (world r) = true
  /\ forall depth',
       process_link env self (Some href) depth' (world r)
       = mkRun [EvSismember (visited_key href) href] (world r) (Ret tt).
Proof.
  intros Hne Ha. cbn zeta. rewrite process_link_absent by done.
  unfold prepend at 1. cbn [res]. intros Hr.
  rewrite (publish_raise _ _ _ _ _ _ Hr). unfold prepend. cbn [out world res app].
  refine (conj eq_refl (conj eq_refl (conj (visited_mark_visited _ _) _))).
  intros depth'. apply process_link_visited; [done|apply visited_mark_visited].
Qed.

Lemma process_link_marks_before_publishing_witness :
  let r := process_link (Example.env_of Example.plain_site false Example.on_time)
             (Example.scraper_at 0%Q) (Some "http://[b.test/x") 1 Example.empty_world in
  sent (out r) = []
  /\ world r = mark_visited "http://[b.test/x" Example.empty_world
  /\ visited "http://[b.test/x" (world r) = true
  /\ forall depth',
       process_link (Example.env_of Example.plain_site false Example.on_time)
         (Example.scraper_at 0%Q) (Some "http://[b.test/x") depth' (world r)
       = mkRun [EvSismember (visited_key "http://[b.test/x") "http://[b.test/x"]
               (world r) (Ret tt).
Proof.
  apply (process_link_marks_before_publishing
           (Example.env_of Example.plain_site false Example.on_time)
           (Example.scraper_at 0%Q) "http://[b.test/x" 1 Example.empty_world ValueError).
  - vm_compute. discriminate.
  - vm_compute. reflexivity.
  - vm_compute. reflexivity.
Defined.

(** X18. Deduplication is by the link as written, not by the
    URL it resolves to: two different new links without a scheme that
    [urljoin] resolves to the same URL are both published, as two
    records with that URL. *)
Theorem same_target_published_twice env self h h' d d' w (p p' b : url_parts) j :
  h <> EmptyString -> h' <> EmptyString -> h <> h' ->
  absent h w = true -> absent h' w = true ->
  producer_closed w = false ->
  urlparse env h = Some p -> scheme p = EmptyString ->
  urlparse env h' = Some p' -> scheme p' = EmptyString ->
  urlparse env (kafka_topic self) = Some b ->
  urljoin env (scheme b +:+ "://" +:+ netloc b) h = Some j ->
  urljoin env (scheme b +:+ "://" +:+ netloc b) h' = Some j ->
  sent (out ((process_link env self (Some h) d ;; process_link env self (Some h') d') w))
  = [Message j d; Message j d'].
Proof.
  intros Hne Hne' Hd Ha Ha' Hc Hp Hs Hp' Hs' Hb Hj Hj'.
  erewrite bind_run; cycle 1.
  { rewrite process_link_absent by done. erewrite publish_run by eauto. reflexivity. }
  rewrite process_link_absent; [|done|]; cycle 1.
  { change (absent h' (mark_visited h w) = true). by rewrite absent_mark_other. }
  erewrite publish_run by eauto. reflexivity.
Qed.

Lemma same_target_published_twice_witness :
  sent (out ((process_link (Example.env_of Example.plain_site false Example.on_time)
                (Example.scraper_at 0%Q) (Some "/about") 1 ;;
              process_link (Example.env_of Example.plain_site false Example.on_time)
                (Example.scraper_at 0%Q) (Some "/./about") 1) Example.empty_world))
  = [Message "/about" 1; Message "/about" 1].
Proof.
  apply (same_target_published_twice
           (Example.env_of Example.plain_site false Example.on_time)
           (Example.scraper_at 0%Q) "/about" "/./about" 1 1 Example.empty_world
           (UrlParts "" "") (UrlParts "" "") (UrlParts "" "") "/about").
  all: try (vm_compute; discriminate).
  all: vm_compute; reflexivity.
Defined.

(** X19. Every visited set belongs to one link: its key is
    made of the link and it holds at most that link.  [process_link],
    [scrape] and [start_scraping] keep this, however they end. *)
Theorem visited_sets_hold_one_link env self w :
  one_link_per_key w ->
  (forall href depth, one_link_per_key (world (process_link env self href depth w)))
  /\ (forall url depth, one_link_per_key (world (scrape env self url depth w)))
  /\ (forall urls, one_link_per_key (world (start_scraping env self urls w))).
Proof.
  intros Hw. refine (conj _ (conj _ _)).
  - intros href depth. by apply process_link_more.
  - intros url depth. by apply scrape_summary.
  - intros urls. by apply start_scraping_summary.
Qed.

Lemma visited_sets_hold_one_link_witness :
  (forall href depth,
     one_link_per_key
       (world (process_link (Example.env_of Example.linked_site false Example.on_time)
                 (Example.scraper_at 0%Q) href depth Example.empty_world)))
  /\ (forall url depth,
        one_link_per_key
          (world (scrape (Example.env_of Example.linked_site false Example.on_time)
                    (Example.scraper_at 0%Q) url depth Example.empty_world)))
  /\ (forall urls,
        one_link_per_key
          (world (start_scraping (Example.env_of Example.linked_site false Example.on_time)
                    (Example.scraper_at 0%Q) urls Example.empty_world))).
Proof.
  apply (visited_sets_hold_one_link
           (Example.env_of Example.linked_site false Example.on_time)
           (Example.scraper_at 0%Q) Example.empty_world).
  intros h s H. change (redis Example.empty_world) with (∅ : gmap string rvalue) in H.
  rewrite lookup_empty in H. discriminate H.
Defined.

Lemma absent_false_after_scrapes env tasks h w :
  absent h w = false -> absent h (after_scrapes env tasks w) = false.
Proof.
  revert w. induction tasks as [|[[self' url'] depth'] tasks IH]; intros w Ha; [done|].
  cbn [after_scrapes]. apply IH. by apply scrape_summary.
Qed.

(** X20. Visited is permanent.  A link that is recorded as
    visited (or whose key holds a value of another type) stays so
    through any sequence of calls of [scrape]; [process_link] for it
    afterwards publishes nothing and changes nothing. *)
Theorem visited_is_permanent env tasks self h d w :
  absent h w = false ->
  let w' := after_scrapes env tasks w in
  absent h w' = false
  /\ sent (out (process_link env self (Some h) d w')) = []
  /\ world (process_link env self (Some h) d w') = w'.
Proof.
  intros Ha w'. assert (Ha' : absent h w' = false) by by apply absent_false_after_scrapes.
  split; [done|].
  destruct (process_link_summary env self (Some h) d w') as (_ & _ & _ & _ & _ & H).
  by apply (H h).
Qed.

Lemma visited_is_permanent_witness :
  let w' := after_scrapes (Example.env_of Example.linked_site false Example.on_time)
              [(Example.scraper_at 0%Q, Example.page_url, 0)]
              (mark_visited "http://b.test/x" Example.empty_world) in
  absent "http://b.test/x" w' = false
  /\ sent (out (process_link (Example.env_of Example.linked_site false Example.on_time)
                  (Example.scraper_at 0%Q) (Some "http://b.test/x") 1 w')) = []
  /\ world (process_link (Example.env_of Example.linked_site false Example.on_time)
              (Example.scraper_at 0%Q) (Some "http://b.test/x") 1 w') = w'.
Proof.
  apply (visited_is_permanent
           (Example.env_of Example.linked_site false Example.on_time)
           [(Example.scraper_at 0%Q, Example.page_url, 0)]
           (Example.scraper_at 0%Q) "http://b.test/x" 1
           (mark_visited "http://b.test/x" Example.empty_world)).
  vm_compute. reflexivity.
Defined.

(** ** [start_scraping], [cleanup], the handler of POST /scrape/, the consumer *)

(** X21. [Scraper.start_scraping] requests the initial URLs in
    order, each once, and nothing else: what it requested is a prefix of
    the list, the whole list when it returns and [max_depth] is not
    negative, nothing when [max_depth] is negative.  Every record it
    publishes has depth 1; the topic grows by exactly these records and
    the committed offset is unchanged. *)
Theorem start_scraping_fetches_initial_urls env self urls w :
  let r := start_scraping env self urls w in
  fetched (out r) `prefix_of` urls
  /\ (res r = Ret tt -> 0 <= max_depth self -> fetched (out r) = urls)
  /\ (max_depth self < 0 -> fetched (out r) = [])
  /\ Forall (λ m, msg_depth m = 1) (sent (out r))
  /\ topic (world r) = topic w ++ sent (out r)
  /\ committed (world r) = committed w.
Proof.
  destruct (start_scraping_summary env self urls w)
    as (Hp & Hr & Hc & _ & Ht & Hd & _).
  cbn zeta in *. repeat split; try done.
  - destruct (0 >? max_depth self); [|done].
    apply prefix_nil_inv in Hp. rewrite Hp. apply prefix_nil.
  - intros Hm. destruct (0 >? max_depth self) eqn:E; [|lia].
    by apply prefix_nil_inv in Hp.
Qed.

(** X22. [cleanup] never raises.  It returns when the iteration
    over the consumer ends and waits for ever otherwise; either way the
    producer is closed, no record is left after the committed offset, no
    page was requested, no record published, and Redis, the topic, the
    local files and S3 are unchanged. *)
Theorem cleanup_closes_and_drains env w :
  let r := cleanup env w in
  res r = (if iteration_ends env then Ret tt else Block)
  /\ producer_closed (world r) = true
  /\ pending (world r) = []
  /\ fetched (out r) = [] /\ sent (out r) = []
  /\ redis (world r) = redis w /\ topic (world r) = topic w
  /\ files (world r) = files w /\ bucket (world r) = bucket w.
Proof. apply cleanup_summary. Qed.

(** X23. The handler of [POST /scrape/].  It requests a prefix
    of the initial URLs and publishes only records of depth 1, which are
    appended to the topic.  When it returns, it has requested every
    initial URL, the producer is closed, no record is left after the
    committed offset (so the records it published are consumed by
    nobody of the group), and the consumer iteration has ended.  When
    it raises, the exception is a Redis error, a ValueError of urllib,
    or the OSError of [open] in [create_file], the last only when the
    file name of one of the initial URLs is too long; and [cleanup] was
    skipped: the producer is still open and the committed offset is
    unchanged. *)
Theorem api_start_scraping_outcomes env urls w :
  let r := api_start_scraping env urls w in
  fetched (out r) `prefix_of` urls
  /\ Forall (λ m, msg_depth m = 1) (sent (out r))
  /\ topic (world r) = topic w ++ sent (out r)
  /\ (res r = Ret tt ->
      fetched (out r) = urls /\ pending (world r) = []
      /\ producer_closed (world r) = true /\ iteration_ends env = true)
  /\ (forall e, res r = Raise e ->
        (e = RedisResponseError \/ e = ValueError
         \/ e = OSError /\ Exists (λ u, file_name_fits u = false) urls)
        /\ producer_closed (world r) = false /\ committed (world r) = committed w).
Proof.
  cbn zeta. rewrite api_run. cbv zeta.
  set (self := Example.scraper_at (time_time env (asked w))).
  set (w0 := set_producer_closed false (tick w)).
  destruct (start_scraping_summary env self urls w0)
    as (Hp & Hr & Hc & Hpc & Ht & Hd & He & _ & Hnc & _).
  cbn zeta in *.
  set (s := start_scraping env self urls w0) in *.
  change (0 >? max_depth self) with false in Hp. cbv iota in Hp.
  specialize (Hnc eq_refl).
  destruct (res s) as [[]|e|] eqn:Hs.
  - destruct (cleanup_summary env (world s)) as (Hcr & Hcp & Hcd & Hcf & Hcs & _ & Hct & _).
    cbn zeta in *. set (c := cleanup env (world s)) in *.
    unfold prepend. cbn [out world res app].
    change (fetched (EvTime :: ?x)) with (fetched x).
    change (sent (EvTime :: ?x)) with (sent x).
    rewrite fetched_app, sent_app, Hcf, Hcs, !app_nil_r.
    refine (conj Hp (conj Hd (conj _ (conj _ _)))).
    + rewrite Hct. exact Ht.
    + intros Hres. rewrite Hcr in Hres.
      destruct (iteration_ends env); [|done].
      repeat split; try done. by apply Hr.
    + intros e Hres. rewrite Hcr in Hres. by destruct (iteration_ends env).
  - unfold prepend. cbn [out world res app].
    change (fetched (EvTime :: ?x)) with (fetched x).
    change (sent (EvTime :: ?x)) with (sent x).
    refine (conj Hp (conj Hd (conj Ht (conj _ _)))); [done|].
    intros e' [= <-]. rewrite Hpc, Hc. repeat split.
    destruct He as [He|[[= ->] Hx]]; [|by auto].
    cbn in He. destruct e; try done; auto.
  - by destruct He as [He|[He _]].
Qed.

(** X24. A consumer loop started while the group has no
    committed offset scrapes none of the records already in the topic
    ([auto_offset_reset] is left at 'latest'): it produces nothing,
    changes nothing, and waits. *)
Theorem run_kafka_consumer_skips_backlog env self n w :
  committed w = None ->
  let r := run_kafka_consumer env self n w in
  out r = [] /\ world r = w
  /\ res r = match n with O => Ret tt | S _ => Block end.
Proof.
  intros Hc. cbn zeta. unfold run_kafka_consumer.
  erewrite bind_run by reflexivity. rewrite Hc. cbn [default from_option id].
  unfold prepend. cbn [app].
  assert (Hn : topic w !! length (topic w) = None) by (apply lookup_ge_None; lia).
  destruct n as [|n]; [done|].
  cbn [consume]. erewrite bind_run by reflexivity. rewrite Hn. done.
Qed.

Lemma run_kafka_consumer_skips_backlog_witness :
  let r := run_kafka_consumer (Example.env_of Example.linked_site false Example.on_time)
             (Example.scraper_at 0%Q) 3
             (set_topic (λ _, [Message Example.page_url 0]) Example.empty_world) in
  out r = []
  /\ world r = set_topic (λ _, [Message Example.page_url 0]) Example.empty_world
  /\ res r = Block.
Proof.
  apply (run_kafka_consumer_skips_backlog
           (Example.env_of Example.linked_site false Example.on_time)
           (Example.scraper_at 0%Q) 3
           (set_topic (λ _, [Message Example.page_url 0]) Example.empty_world)).
  reflexivity.
Defined.
